(** * A shallow embedding of [container_service_extension/broker_manager.py]

    The class [BrokerManager] dispatches cluster operations to a vCD broker
    ([VcdBroker]) or to a PKS broker ([PKSBroker]) built from a PKS context.
    Everything the manager consults (the request, the session, the ovdc
    cache, the PKS cache and the brokers themselves) is an environment
    [Env]; the manager's methods are computations in a small
    reader/trace/exception monad [M]:
    - Python exceptions are the [Err] branch of [Result];
    - the trace records, in order, every broker call and every read or
      write of the ovdc container-provider metadata, so that claims about
      which broker is called, and how often, can be stated. *)

From Stdlib Require Import String Ascii List Bool Arith Lia.
Import ListNotations.
Open Scope string_scope.
Open Scope list_scope.

(** ** Python values *)

(** A Python dict with string keys and string values, in insertion order.
    [dict_get d k] is [d.get(k)]: [None] when the key is absent. *)
Definition Dict := list (string * string).

Fixpoint dict_get (d : Dict) (k : string) : option string :=
  match d with
  | [] => None
  | (k', v) :: d' => if String.eqb k k' then Some v else dict_get d' k
  end.

(** [d.get(k, default)] *)
Definition dict_get_default (d : Dict) (k default : string) : string :=
  match dict_get d k with Some v => v | None => default end.

(** [d[k] = v] on a dict of arbitrary values: an existing key keeps its
    position and gets the new value, a new key is appended. *)
Fixpoint dict_set {A} (d : list (string * A)) (k : string) (v : A)
  : list (string * A) :=
  match d with
  | [] => [(k, v)]
  | (k', v') :: d' =>
      if String.eqb k k' then (k', v) :: d' else (k', v') :: dict_set d' k v
  end.

(** [list(d.values())] *)
Definition dict_values {A} (d : list (string * A)) : list A := map snd d.

(** Truthiness of an optional string ([None] and [''] are falsy) and of a
    dict (the empty dict is falsy). *)
Definition truthy_str (o : option string) : bool :=
  match o with Some s => negb (String.eqb s "") | None => false end.

Definition truthy_dict (d : Dict) : bool :=
  match d with [] => false | _ => true end.

(** [a or b] on optional strings. *)
Definition py_or (a b : option string) : option string :=
  if truthy_str a then a else b.

(** [f'{x}'] of an optional string. *)
Definition py_str (o : option string) : string :=
  match o with Some s => s | None => "None" end.

(** [str.lower()] on one character, a byte read as a Latin-1 code point:
    'A'-'Z' and the Latin-1 capitals U+00C0-U+00DE (but U+00D7, the
    multiplication sign) are lowered; no other code point below U+0100
    has a lower-case mapping. *)
Definition ascii_lower (c : ascii) : ascii :=
  let n := nat_of_ascii c in
  if ((65 <=? n)%nat && (n <=? 90)%nat) ||
     ((192 <=? n)%nat && (n <=? 222)%nat && negb (n =? 215)%nat)
  then ascii_of_nat (n + 32)%nat else c.

Fixpoint py_lower (s : string) : string :=
  match s with
  | EmptyString => EmptyString
  | String c s' => String (ascii_lower c) (py_lower s')
  end.

(** [s.split('--')]: left-to-right, non-overlapping occurrences of the
    separator; the result is never empty. *)
Fixpoint split_dd (s : string) : list string :=
  match s with
  | EmptyString => [""]
  | String "-"%char (String "-"%char rest) => "" :: split_dd rest
  | String c rest =>
      match split_dd rest with
      | h :: t => String c h :: t
      | [] => [String c ""]
      end
  end.

(** [l[-1]] on the result of a split, which is never empty. *)
Definition last_item (l : list string) : string := last l "".

(** ** Exceptions *)

Inductive Exn :=
| ClusterNotFoundError (msg : string)
| CseServerError (msg : string)
| PksServerError (status : nat)
| KeyError (key : string)
| AttributeError
(** any other exception raised by a broker or by a cache *)
| OtherError (msg : string).

Inductive Result (A : Type) :=
| Ok (a : A)
| Err (x : Exn).
Arguments Ok {A} a.
Arguments Err {A} x.

(** [d[k]] *)
Definition dict_subscript (d : Dict) (k : string) : Result string :=
  match dict_get d k with Some v => Ok v | None => Err (KeyError k) end.

(** ** Constants imported from [ovdc_cache] and [http] *)

Definition CONTAINER_PROVIDER_KEY := "container_provider".
Definition CtrProvType_VCD := "vcd".
Definition CtrProvType_PKS := "pks".
Definition HTTPStatus_CONFLICT : nat := 409.

(** ** Brokers, calls and the environment *)

Inductive Broker :=
| VcdBroker
| PKSBroker (pks_ctx : Dict).

(** Keyword arguments of a broker call ([cluster_spec]): values may be
    [None]. *)
Definition Kwargs := list (string * option string).

Fixpoint kwargs_get (kw : Kwargs) (k : string) : option (option string) :=
  match kw with
  | [] => None
  | (k', v) :: kw' => if String.eqb k k' then Some v else kwargs_get kw' k
  end.

(** [cluster_spec['cluster_name']] *)
Definition kwargs_subscript (kw : Kwargs) (k : string) : Result (option string) :=
  match kwargs_get kw k with Some v => Ok v | None => Err (KeyError k) end.

(** [PksComputeProfileParams] *)
Record PksComputeProfileParams := {
  cp_name : string;
  az_name : string;
  description : string;
  cpi : option string;
  datacenter_name : option string;
  cp_cluster_name : option string;
  ovdc_rp_name : string
}.

Inductive Call :=
| CGetClusterInfo (b : Broker) (cluster_name : option string)
| CGetClusterConfig (b : Broker) (cluster_name : option string)
| CListClusters (b : Broker)
| CCreateCluster (b : Broker) (cluster_spec : Kwargs)
| CResizeCluster (b : Broker) (curr_cluster_info : Dict) (cluster_spec : Kwargs)
| CDeleteCluster (b : Broker) (cluster_name : option string)
| CCreateComputeProfile (b : Broker) (params : PksComputeProfileParams)
(** [ovdc_cache.get_ovdc_container_provider_metadata(ovdc_name=, org_name=,
    credentials_required=True, nsxt_info_required=)] *)
| CGetOvdcMetadata (ovdc_name : string) (org_name : option string)
    (nsxt_info_required : bool)
(** [ovdc_cache.set_ovdc_container_provider_metadata(ovdc, ...)] *)
| CSetOvdcMetadata (ovdc : string) (container_prov_data : option Dict)
    (container_provider : string).

(** Broker calls, as opposed to reads and writes of the ovdc metadata. *)
Definition is_broker_call (c : Call) : bool :=
  match c with
  | CGetOvdcMetadata _ _ _ | CSetOvdcMetadata _ _ _ => false
  | _ => true
  end.

(** The PKS cache ([get_pks_cache()]) *)
Record PksCache := {
  get_all_pks_account_info_in_system : list Dict;
  do_orgs_have_exclusive_pks_account : bool;
  get_exclusive_pks_accounts_info_for_org : option string -> list Dict
}.

Record Env := {
  (* the request and the session *)
  req_spec : Dict;
  req_qparams : Dict;
  session : Dict;
  is_sysadmin : bool;
  (* the caches *)
  pks_cache : option PksCache;
  (** [ovdc_cache.get_ovdc_container_provider_metadata(ovdc_name, org_name,
      credentials_required=True, nsxt_info_required)] *)
  ovdc_metadata : string -> option string -> bool -> Result Dict;
  (** [vdc['name'] for vdc in Org(vcd_client, vcd_client.get_org()).list_vdcs()] *)
  org_vdc_names : list string;
  (** [OvdcCache.construct_pks_context(info, credentials_required=True)] *)
  construct_pks_context : Dict -> Dict;
  (** what [_get_ovdc_params] reads: [ovdc_cache.get_ovdc(ovdc_id=)],
      [ovdc_cache.get_pvdc_id(ovdc)], and the PKS context built from the
      pvdc, account and nsxt information of the pvdc id and the org name,
      the ovdc and the pks plans *)
  get_ovdc : option string -> Result string;
  get_pvdc_id : string -> Result string;
  build_ovdc_pks_context :
    PksCache -> option string -> string -> string -> string -> Result Dict;
  (** [ovdc_cache.get_compute_profile_name(ovdc_id, ovdc_name)] *)
  get_compute_profile_name : option string -> option string -> string;
  (** [ovdc_cache.set_ovdc_container_provider_metadata(...)]: the task *)
  set_ovdc_metadata : string -> option Dict -> string -> Result Dict;
  (* the brokers *)
  get_cluster_info : Broker -> option string -> Result Dict;
  get_cluster_config : Broker -> option string -> Result string;
  list_clusters : Broker -> Result (list Dict);
  create_cluster : Broker -> Kwargs -> Result string;
  resize_cluster : Broker -> Dict -> Kwargs -> Result string;
  delete_cluster : Broker -> option string -> Result string;
  create_compute_profile : Broker -> PksComputeProfileParams -> Result unit
}.

(** ** The monad *)

Definition M (A : Type) := Env -> list Call -> Result A * list Call.

Definition ret {A} (a : A) : M A := fun _ tr => (Ok a, tr).

Definition bind {A B} (m : M A) (f : A -> M B) : M B :=
  fun e tr =>
    match m e tr with
    | (Ok a, tr') => f a e tr'
    | (Err x, tr') => (Err x, tr')
    end.

Definition raise {A} (x : Exn) : M A := fun _ tr => (Err x, tr).

(** [try: m except Exception as err: h err] *)
Definition try_except {A} (m : M A) (h : Exn -> M A) : M A :=
  fun e tr =>
    match m e tr with
    | (Err x, tr') => h x e tr'
    | r => r
    end.

Definition ask : M Env := fun e tr => (Ok e, tr).

Definition lift {A} (r : Result A) : M A := fun _ tr => (r, tr).

(** An external call: recorded in the trace, answered by the environment. *)
Definition call {A} (c : Call) (answer : Env -> Result A) : M A :=
  fun e tr => (answer e, tr ++ [c]).

Notation "x <- m ;; k" := (bind m (fun x => k))
  (at level 61, m at next level, right associativity).
Notation "m ;;; k" := (bind m (fun _ => k))
  (at level 61, right associativity).

(** ** Calls to the ovdc cache and to the brokers *)

Definition get_ovdc_container_provider_metadata (ovdc_name : string)
    (org_name : option string) (nsxt_info_required : bool) : M Dict :=
  call (CGetOvdcMetadata ovdc_name org_name nsxt_info_required)
       (fun e => ovdc_metadata e ovdc_name org_name nsxt_info_required).

Definition broker_get_cluster_info (b : Broker) (cluster_name : option string)
  : M Dict :=
  call (CGetClusterInfo b cluster_name) (fun e => get_cluster_info e b cluster_name).

Definition broker_get_cluster_config (b : Broker) (cluster_name : option string)
  : M string :=
  call (CGetClusterConfig b cluster_name)
       (fun e => get_cluster_config e b cluster_name).

Definition broker_list_clusters (b : Broker) : M (list Dict) :=
  call (CListClusters b) (fun e => list_clusters e b).

Definition broker_create_cluster (b : Broker) (cluster_spec : Kwargs) : M string :=
  call (CCreateCluster b cluster_spec) (fun e => create_cluster e b cluster_spec).

Definition broker_resize_cluster (b : Broker) (curr_cluster_info : Dict)
    (cluster_spec : Kwargs) : M string :=
  call (CResizeCluster b curr_cluster_info cluster_spec)
       (fun e => resize_cluster e b curr_cluster_info cluster_spec).

Definition broker_delete_cluster (b : Broker) (cluster_name : option string)
  : M string :=
  call (CDeleteCluster b cluster_name) (fun e => delete_cluster e b cluster_name).

Definition broker_create_compute_profile (b : Broker)
    (params : PksComputeProfileParams) : M unit :=
  call (CCreateComputeProfile b params) (fun e => create_compute_profile e b params).

(** ** [BrokerManager] *)

Definition opt_str_eqb (a b : option string) : bool :=
  match a, b with
  | Some x, Some y => String.eqb x y
  | None, None => true
  | _, _ => false
  end.

(** [self.req_spec.get('vdc') or self.req_qparams.get('vdc')] *)
Definition req_vdc (e : Env) : option string :=
  py_or (dict_get (req_spec e) "vdc") (dict_get (req_qparams e) "vdc").

(** [self.is_ovdc_present_in_request], set by [invoke] before dispatching. *)
Definition is_ovdc_present_in_request (e : Env) : bool := truthy_str (req_vdc e).

(** [self.req_spec.get('org') or self.req_qparams.get('org')
    or self.session.get('org')] *)
Definition req_org (e : Env) : option string :=
  py_or (py_or (dict_get (req_spec e) "org") (dict_get (req_qparams e) "org"))
        (dict_get (session e) "org").

Definition not_enabled_msg (ovdc_name : string) : string :=
  ("Vdc '" ++ ovdc_name ++ "' is not enabled for Kubernetes cluster deployment")%string.

Definition get_broker_based_on_vdc : M Broker :=
  e <- ask ;;
  let ovdc_name := req_vdc e in
  let org_name := req_org e in
  match ovdc_name, org_name with
  | Some ovdc, Some org =>
      if truthy_str ovdc_name && truthy_str org_name then
        ctr_prov_ctx <- get_ovdc_container_provider_metadata ovdc (Some org) true ;;
        if opt_str_eqb (dict_get ctr_prov_ctx CONTAINER_PROVIDER_KEY)
                       (Some CtrProvType_PKS) then
          ret (PKSBroker ctr_prov_ctx)
        else if opt_str_eqb (dict_get ctr_prov_ctx CONTAINER_PROVIDER_KEY)
                            (Some CtrProvType_VCD) then
          ret VcdBroker
        else raise (CseServerError (not_enabled_msg ovdc))
      else ret VcdBroker
  | _, _ => ret VcdBroker
  end.

(** The loop of [_create_pks_context_for_all_accounts_in_org] that fills
    [pks_ctx_dict], keyed by [ctr_prov_ctx['vc']]. *)
Fixpoint collect_pks_ctx_dict (org_name : option string) (vdc_names : list string)
    (pks_ctx_dict : list (string * Dict)) : M (list (string * Dict)) :=
  match vdc_names with
  | [] => ret pks_ctx_dict
  | vdc_name :: rest =>
      ctr_prov_ctx <- get_ovdc_container_provider_metadata vdc_name org_name false ;;
      prov <- lift (dict_subscript ctr_prov_ctx CONTAINER_PROVIDER_KEY) ;;
      if String.eqb prov CtrProvType_PKS then
        vc <- lift (dict_subscript ctr_prov_ctx "vc") ;;
        collect_pks_ctx_dict org_name rest (dict_set pks_ctx_dict vc ctr_prov_ctx)
      else collect_pks_ctx_dict org_name rest pks_ctx_dict
  end.

Definition _create_pks_context_for_all_accounts_in_org : M (list Dict) :=
  e <- ask ;;
  match pks_cache e with
  | None => ret []
  | Some pc =>
      if is_sysadmin e then
        ret (map (construct_pks_context e) (get_all_pks_account_info_in_system pc))
      else
        let org_name := dict_get (session e) "org" in
        if do_orgs_have_exclusive_pks_account pc then
          ret (map (construct_pks_context e)
                   (get_exclusive_pks_accounts_info_for_org pc org_name))
        else
          pks_ctx_dict <- collect_pks_ctx_dict org_name (org_vdc_names e) [] ;;
          ret (dict_values pks_ctx_dict)
  end.

(** The loop over the PKS contexts in [_find_cluster_in_org]; the log line
    of the [except] clause reads [pks_ctx['host']]. *)
Fixpoint find_cluster_in_pks_contexts (cluster_name : option string)
    (pks_ctx_list : list Dict) : M (option (Dict * Broker)) :=
  match pks_ctx_list with
  | [] => ret None
  | pks_ctx :: rest =>
      let pksbroker := PKSBroker pks_ctx in
      try_except
        (c <- broker_get_cluster_info pksbroker cluster_name ;;
         ret (Some (c, pksbroker)))
        (fun _ =>
           lift (dict_subscript pks_ctx "host") ;;;
           find_cluster_in_pks_contexts cluster_name rest)
  end.

(** [(None, None)] is [None]. *)
Definition _find_cluster_in_org (cluster_name : option string)
  : M (option (Dict * Broker)) :=
  try_except
    (c <- broker_get_cluster_info VcdBroker cluster_name ;;
     ret (Some (c, VcdBroker)))
    (fun _ =>
       pks_ctx_list <- _create_pks_context_for_all_accounts_in_org ;;
       find_cluster_in_pks_contexts cluster_name pks_ctx_list).

Definition not_found_msg (cluster_name : option string) : string :=
  ("cluster " ++ py_str cluster_name ++ " not found either in vCD or PKS")%string.

Definition _get_cluster_info (cluster_spec : Kwargs) : M (Dict * Broker) :=
  cluster_name <- lift (kwargs_subscript cluster_spec "cluster_name") ;;
  e <- ask ;;
  if is_ovdc_present_in_request e then
    broker <- get_broker_based_on_vdc ;;
    c <- broker_get_cluster_info broker cluster_name ;;
    ret (c, broker)
  else
    r <- _find_cluster_in_org cluster_name ;;
    match r with
    | Some (cluster, broker) =>
        if truthy_dict cluster then ret (cluster, broker)
        else raise (ClusterNotFoundError (not_found_msg cluster_name))
    | None => raise (ClusterNotFoundError (not_found_msg cluster_name))
    end.

Definition _get_cluster_config (cluster_spec : Kwargs) : M string :=
  cluster_name <- lift (kwargs_subscript cluster_spec "cluster_name") ;;
  e <- ask ;;
  if is_ovdc_present_in_request e then
    broker <- get_broker_based_on_vdc ;;
    broker_get_cluster_config broker cluster_name
  else
    r <- _find_cluster_in_org cluster_name ;;
    match r with
    | Some (cluster, broker) =>
        if truthy_dict cluster then
          name <- lift (dict_subscript cluster "name") ;;
          broker_get_cluster_config broker (Some name)
        else raise (ClusterNotFoundError (not_found_msg cluster_name))
    | None => raise (ClusterNotFoundError (not_found_msg cluster_name))
    end.

(** The dicts built by [_list_clusters] have the keys [name], [vdc],
    [status] and, once set, [container_provider]. *)
Record ClusterRecord := {
  cr_name : option string;
  cr_vdc : option string;
  cr_status : option string;
  cr_container_provider : option string
}.

(** [{k: cluster.get(k, None) for k in ('name', 'vdc', 'status')}] *)
Definition common_properties (cluster : Dict) : ClusterRecord :=
  {| cr_name := dict_get cluster "name";
     cr_vdc := dict_get cluster "vdc";
     cr_status := dict_get cluster "status";
     cr_container_provider := None |}.

Definition set_vdc (r : ClusterRecord) (v : string) : ClusterRecord :=
  {| cr_name := cr_name r; cr_vdc := Some v; cr_status := cr_status r;
     cr_container_provider := cr_container_provider r |}.

Definition set_status (r : ClusterRecord) (v : string) : ClusterRecord :=
  {| cr_name := cr_name r; cr_vdc := cr_vdc r; cr_status := Some v;
     cr_container_provider := cr_container_provider r |}.

Definition set_container_provider (r : ClusterRecord) (v : string)
  : ClusterRecord :=
  {| cr_name := cr_name r; cr_vdc := cr_vdc r; cr_status := cr_status r;
     cr_container_provider := Some v |}.

(** [_get_truncated_cluster_info(cluster, pks_broker,
    ('name', 'vdc', 'status'))]: [pks_cluster.get('status', '')] is
    [cluster.get('status')], and [None.lower()] raises. *)
Definition _get_truncated_cluster_info (cluster : Dict) (pks_broker : Broker)
  : Result ClusterRecord :=
  let pks_cluster := common_properties cluster in
  let compute_profile_name := dict_get_default cluster "compute-profile-name" "" in
  let pks_cluster :=
    set_vdc pks_cluster
      (if truthy_str (Some compute_profile_name)
       then last_item (split_dd compute_profile_name) else "") in
  match cr_status pks_cluster with
  | Some status =>
      Ok (set_status pks_cluster
            (py_lower (dict_get_default cluster "last-action" "") ++ " "
             ++ py_lower status)%string)
  | None => Err AttributeError
  end.

(** [for cluster in pks_broker.list_clusters(): ...] *)
Fixpoint truncate_pks_clusters (pks_broker : Broker) (clusters : list Dict)
  : Result (list ClusterRecord) :=
  match clusters with
  | [] => Ok []
  | cluster :: rest =>
      match _get_truncated_cluster_info cluster pks_broker with
      | Err x => Err x
      | Ok pks_cluster =>
          match truncate_pks_clusters pks_broker rest with
          | Err x => Err x
          | Ok l => Ok (set_container_provider pks_cluster CtrProvType_PKS :: l)
          end
      end
  end.

Fixpoint list_pks_clusters (pks_ctx_list : list Dict) : M (list ClusterRecord) :=
  match pks_ctx_list with
  | [] => ret []
  | pks_ctx :: rest =>
      let pks_broker := PKSBroker pks_ctx in
      clusters <- broker_list_clusters pks_broker ;;
      recs <- lift (truncate_pks_clusters pks_broker clusters) ;;
      more <- list_pks_clusters rest ;;
      ret (recs ++ more)
  end.

Definition vcd_cluster_record (cluster : Dict) : ClusterRecord :=
  set_container_provider (common_properties cluster) CtrProvType_VCD.

(** With a vdc in the request the broker's own list is returned ([inl]);
    otherwise the aggregated records ([inr]). *)
Definition _list_clusters : M (list Dict + list ClusterRecord) :=
  e <- ask ;;
  if is_ovdc_present_in_request e then
    broker <- get_broker_based_on_vdc ;;
    l <- broker_list_clusters broker ;;
    ret (inl l)
  else
    vcd_list <- broker_list_clusters VcdBroker ;;
    let vcd_clusters := map vcd_cluster_record vcd_list in
    pks_ctx_list <- _create_pks_context_for_all_accounts_in_org ;;
    pks_clusters <- list_pks_clusters pks_ctx_list ;;
    ret (inr (vcd_clusters ++ pks_clusters)).

Definition _resize_cluster (cluster_spec : Kwargs) : M string :=
  p <- _get_cluster_info cluster_spec ;;
  let '(cluster, broker) := p in
  broker_resize_cluster broker cluster cluster_spec.

Definition _delete_cluster (cluster_spec : Kwargs) : M string :=
  cluster_name <- lift (kwargs_subscript cluster_spec "cluster_name") ;;
  p <- _get_cluster_info cluster_spec ;;
  let '(_, broker) := p in
  broker_delete_cluster broker cluster_name.

Definition already_found_msg (cluster_name : option string) : string :=
  ("Cluster with name: " ++ py_str cluster_name ++ " already found")%string.

Definition _create_cluster (cluster_spec : Kwargs) : M string :=
  cluster_name <- lift (kwargs_subscript cluster_spec "cluster_name") ;;
  r <- _find_cluster_in_org cluster_name ;;
  let cluster := match r with Some (c, _) => Some c | None => None end in
  let found := match cluster with Some c => truthy_dict c | None => false end in
  if negb found then
    broker <- get_broker_based_on_vdc ;;
    broker_create_cluster broker cluster_spec
  else raise (CseServerError (already_found_msg cluster_name)).

(** ** Enabling an ovdc *)

Definition _get_ovdc_params : M (option Dict * string) :=
  e <- ask ;;
  let ovdc_id := dict_get (req_spec e) "ovdc_id" in
  let org_name := dict_get (req_spec e) "org_name" in
  pks_plans <- lift (dict_subscript (req_spec e) "pks_plans") ;;
  ovdc <- lift (get_ovdc e ovdc_id) ;;
  pvdc_id <- lift (get_pvdc_id e ovdc) ;;
  prov <- lift (dict_subscript (req_spec e) CONTAINER_PROVIDER_KEY) ;;
  if String.eqb prov CtrProvType_PKS then
    match pks_cache e with
    | None => raise (CseServerError "PKS config file does not exist")
    | Some pc =>
        pks_context <- lift (build_ovdc_pks_context e pc org_name pvdc_id ovdc pks_plans) ;;
        ret (Some pks_context, ovdc)
    end
  else ret (None, ovdc).

(** [pks_ctx.get(...)] on [None] raises. *)
Definition compute_profile_params (e : Env) (pks_ctx : Dict)
  : PksComputeProfileParams :=
  let ovdc_id := dict_get (req_spec e) "ovdc_id" in
  let org_name := dict_get (req_spec e) "org_name" in
  let ovdc_name := dict_get (req_spec e) "ovdc_name" in
  {| cp_name := get_compute_profile_name e ovdc_id ovdc_name;
     az_name := ("az-" ++ py_str ovdc_name)%string;
     description :=
       (py_str org_name ++ "--" ++ py_str ovdc_name ++ "--" ++ py_str ovdc_id)%string;
     cpi := dict_get pks_ctx "cpi";
     datacenter_name := dict_get pks_ctx "datacenter";
     cp_cluster_name := dict_get pks_ctx "cluster";
     ovdc_rp_name := (py_str ovdc_name ++ " (" ++ py_str ovdc_id ++ ")")%string |}.

Definition _create_pks_compute_profile (pks_ctx : option Dict) : M unit :=
  e <- ask ;;
  ctx <- lift (match pks_ctx with Some c => Ok c | None => Err AttributeError end) ;;
  let pksbroker := PKSBroker ctx in
  try_except (broker_create_compute_profile pksbroker (compute_profile_params e ctx))
    (fun ex =>
       match ex with
       | PksServerError status =>
           if Nat.eqb status HTTPStatus_CONFLICT then ret tt else raise ex
       | _ => raise ex
       end).

(** The [Operation.ENABLE_OVDC] branch of [invoke]: the body is
    [{'task_href': task.get('href')}]. *)
Definition enable_ovdc : M (option string) :=
  p <- _get_ovdc_params ;;
  let '(pks_ctx, ovdc) := p in
  e <- ask ;;
  prov <- lift (dict_subscript (req_spec e) CONTAINER_PROVIDER_KEY) ;;
  (if String.eqb prov CtrProvType_PKS then _create_pks_compute_profile pks_ctx
   else ret tt) ;;;
  prov' <- lift (dict_subscript (req_spec e) CONTAINER_PROVIDER_KEY) ;;
  task <- call (CSetOvdcMetadata ovdc pks_ctx prov')
              (fun e => set_ovdc_metadata e ovdc pks_ctx prov') ;;
  ret (dict_get task "href").

(** ** Listing ovdcs *)

(** What [_list_ovdcs] reads of an org resource through
    [Org(vcd_client, resource=org_resource)]: [get_name()] and the names of
    the vdcs of [list_vdcs()]. *)
Record OrgResource := {
  org_get_name : string;
  org_list_vdcs : list string
}.

(** The parts of the vCD client and of the ovdc cache that only [invoke]
    and [_list_ovdcs] consult. *)
Record VcdView := {
  (** [ovdc_cache.get_ovdc_container_provider_metadata(ovdc_id=ovdc_id)] *)
  metadata_by_id : option string -> Result Dict;
  (** [vcd_client.get_org_list()] *)
  get_org_list : list OrgResource;
  (** what iterating [list(vcd_client.get_org())] yields *)
  own_org_resources : list OrgResource;
  (** [ovdc_cache.get_ovdc_container_provider_metadata(ovdc_name=,
      org_name=, credentials_required=False)] *)
  metadata_without_credentials : string -> option string -> Result Dict
}.

(** [for vdc in vdc_list: ... ovdc_list.append(vdc_dict)] for one org. *)
Fixpoint list_ovdcs_of_org (v : VcdView) (org : OrgResource)
    (vdc_list : list string) (ovdc_list : list Dict) : Result (list Dict) :=
  match vdc_list with
  | [] => Ok ovdc_list
  | vdc :: rest =>
      match metadata_without_credentials v vdc (Some (org_get_name org)) with
      | Err x => Err x
      | Ok ctr_prov_ctx =>
          match dict_subscript ctr_prov_ctx CONTAINER_PROVIDER_KEY with
          | Err x => Err x
          | Ok prov =>
              let vdc_dict := [("org", org_get_name org); ("name", vdc);
                               (CONTAINER_PROVIDER_KEY, prov)] in
              list_ovdcs_of_org v org rest (ovdc_list ++ [vdc_dict])
          end
      end
  end.

(** [for org_resource in org_resource_list: ...] *)
Fixpoint list_ovdcs_loop (v : VcdView) (org_resource_list : list OrgResource)
    (ovdc_list : list Dict) : Result (list Dict) :=
  match org_resource_list with
  | [] => Ok ovdc_list
  | org :: rest =>
      match list_ovdcs_of_org v org (org_list_vdcs org) ovdc_list with
      | Err x => Err x
      | Ok l => list_ovdcs_loop v rest l
      end
  end.

Definition _list_ovdcs (v : VcdView) (e : Env) : Result (list Dict) :=
  let org_resource_list :=
    if is_sysadmin e then get_org_list v else own_org_resources v in
  list_ovdcs_loop v org_resource_list [].

(** ** The dispatcher [invoke] *)

Inductive Operation :=
| CREATE_CLUSTER
| DELETE_CLUSTER
| GET_CLUSTER
| LIST_CLUSTERS
| RESIZE_CLUSTER
| LIST_OVDCS
| ENABLE_OVDC
| INFO_OVDC
| GET_CLUSTER_CONFIG.

(** [utils.OK] and [utils.ACCEPTED] *)
Definition OK : nat := 200.
Definition ACCEPTED : nat := 202.

(** The values [result['body']] takes. *)
Inductive Body :=
| BList (l : list Dict)
| BDict (d : Dict)
| BTaskHref (task_href : option string)
| BClusters (l : list Dict + list ClusterRecord)
| BText (s : string).

Record Response := {
  body : Body;
  status_code : nat
}.

(** The [cluster_spec] of [Operation.CREATE_CLUSTER]. *)
Definition create_cluster_spec (e : Env) : Kwargs :=
  let s := req_spec e in
  [("cluster_name", dict_get s "cluster_name");
   ("vdc_name", dict_get s "vdc");
   ("node_count", dict_get s "node_count");
   ("storage_profile", dict_get s "storage_profile");
   ("network_name", dict_get s "network");
   ("template", dict_get s "template");
   ("pks_plan", dict_get s "pks_plan");
   ("pks_ext_host", dict_get s "pks_ext_host")].

(** The body of [invoke]; its decorator [@exception_handler] (of [utils])
    turns a raised exception into an error response and is not part of
    this file. [self.is_ovdc_present_in_request] is
    [is_ovdc_present_in_request e]. The metadata reads of [INFO_OVDC] and
    [LIST_OVDCS] are not recorded in the trace. *)
Definition invoke (v : VcdView) (op : Operation) : M Response :=
  e <- ask ;;
  let name_spec := [("cluster_name", dict_get (req_spec e) "cluster_name")] in
  match op with
  | INFO_OVDC =>
      d <- lift (metadata_by_id v (dict_get (req_spec e) "ovdc_id")) ;;
      ret {| body := BDict d; status_code := OK |}
  | ENABLE_OVDC =>
      task_href <- enable_ovdc ;;
      ret {| body := BTaskHref task_href; status_code := ACCEPTED |}
  | GET_CLUSTER =>
      p <- _get_cluster_info name_spec ;;
      ret {| body := BDict (fst p); status_code := OK |}
  | LIST_CLUSTERS =>
      l <- _list_clusters ;;
      ret {| body := BClusters l; status_code := OK |}
  | DELETE_CLUSTER =>
      s <- _delete_cluster name_spec ;;
      ret {| body := BText s; status_code := ACCEPTED |}
  | RESIZE_CLUSTER =>
      s <- _resize_cluster
             [("cluster_name", dict_get (req_spec e) "cluster_name");
              ("node_count", dict_get (req_spec e) "node_count")] ;;
      ret {| body := BText s; status_code := ACCEPTED |}
  | GET_CLUSTER_CONFIG =>
      s <- _get_cluster_config name_spec ;;
      ret {| body := BText s; status_code := OK |}
  | CREATE_CLUSTER =>
      s <- _create_cluster (create_cluster_spec e) ;;
      ret {| body := BText s; status_code := ACCEPTED |}
  | LIST_OVDCS =>
      l <- lift (_list_ovdcs v e) ;;
      ret {| body := BList l; status_code := OK |}
  end.

(** [PksComputeProfileParams.to_dict()]: [dict(self._asdict())], the
    fields in declaration order. *)
Definition to_dict (p : PksComputeProfileParams) : list (string * option string) :=
  [("cp_name", Some (cp_name p));
   ("az_name", Some (az_name p));
   ("description", Some (description p));
   ("cpi", cpi p);
   ("datacenter_name", datacenter_name p);
   ("cluster_name", cp_cluster_name p);
   ("ovdc_rp_name", Some (ovdc_rp_name p))].

(** ** Reference definitions for the search *)

(** The brokers [_find_cluster_in_org] tries, in order, once the accounts
    are enumerated. *)
Definition candidates (pks_ctx_list : list Dict) : list Broker :=
  VcdBroker :: map PKSBroker pks_ctx_list.

(** The first broker whose [get_cluster_info] succeeds, with its answer. *)
Fixpoint first_hit (e : Env) (cluster_name : option string) (bs : list Broker)
  : option (Dict * Broker) :=
  match bs with
  | [] => None
  | b :: bs' =>
      match get_cluster_info e b cluster_name with
      | Ok c => Some (c, b)
      | Err _ => first_hit e cluster_name bs'
      end
  end.

(** The brokers probed: all of them up to and including the first hit. *)
Fixpoint probed (e : Env) (cluster_name : option string) (bs : list Broker)
  : list Broker :=
  match bs with
  | [] => []
  | b :: bs' =>
      b :: match get_cluster_info e b cluster_name with
           | Ok _ => []
           | Err _ => probed e cluster_name bs'
           end
  end.

Definition probe_calls (cluster_name : option string) (bs : list Broker)
  : list Call :=
  map (fun b => CGetClusterInfo b cluster_name) bs.

Definition broker_calls (tr : list Call) : list Call := filter is_broker_call tr.

Definition has_host (pks_ctx : Dict) : Prop := dict_get pks_ctx "host" <> None.

Definition probe_fails (e : Env) (cluster_name : option string) (b : Broker)
  : bool :=
  match get_cluster_info e b cluster_name with Ok _ => false | Err _ => true end.

Definition is_create_call (c : Call) : bool :=
  match c with CCreateCluster _ _ => true | _ => false end.

Definition create_calls (tr : list Call) : list Call := filter is_create_call tr.

(** Brokers answer [get_cluster_info] for [cluster_name] with a non-empty
    dict whenever they find it. *)
Definition hits_are_truthy (e : Env) (cluster_name : option string) : Prop :=
  forall b c, get_cluster_info e b cluster_name = Ok c -> truthy_dict c = true.

(** The broker [get_broker_based_on_vdc] picks for a valid ovdc. *)
Definition broker_of_ctx (ctr_prov_ctx : Dict) : Broker :=
  if opt_str_eqb (dict_get ctr_prov_ctx CONTAINER_PROVIDER_KEY) (Some CtrProvType_PKS)
  then PKSBroker ctr_prov_ctx else VcdBroker.

Definition valid_owner (ctr_prov_ctx : Dict) : Prop :=
  dict_get ctr_prov_ctx CONTAINER_PROVIDER_KEY = Some CtrProvType_PKS \/
  dict_get ctr_prov_ctx CONTAINER_PROVIDER_KEY = Some CtrProvType_VCD.

(** A request context with a few brokers' answers fixed, for concrete
    runs. *)
Definition sample_env (spec : Dict)
    (meta : string -> option string -> bool -> Result Dict)
    (gci : Broker -> option string -> Result Dict) : Env :=
  {| req_spec := spec;
     req_qparams := [];
     session := [("org", "acme")];
     is_sysadmin := false;
     pks_cache := None;
     ovdc_metadata := meta;
     org_vdc_names := [];
     construct_pks_context := fun d => d;
     get_ovdc := fun _ => Ok "ovdc1";
     get_pvdc_id := fun _ => Ok "pvdc1";
     build_ovdc_pks_context := fun _ _ _ _ _ => Err (OtherError "no pks");
     get_compute_profile_name := fun _ _ => "cp";
     set_ovdc_metadata := fun _ _ _ => Ok [("href", "task1")];
     get_cluster_info := gci;
     get_cluster_config := fun _ _ => Ok "config";
     list_clusters := fun _ => Ok [];
     create_cluster := fun _ _ => Ok "created";
     resize_cluster := fun _ _ _ => Ok "resized";
     delete_cluster := fun _ _ => Ok "deleted";
     create_compute_profile := fun _ _ => Ok tt |}.

(** vdc1 of org acme is owned by vCD. *)
Definition vcd_owned_meta (ovdc : string) (org : option string) (_ : bool)
  : Result Dict :=
  Ok [(CONTAINER_PROVIDER_KEY, CtrProvType_VCD)].

(** The cluster "c1" exists on vCD only. *)
Definition c1_record : Dict := [("name", "c1"); ("status", "POWERED_ON")].

Definition c1_on_vcd (b : Broker) (n : option string) : Result Dict :=
  match b, n with
  | VcdBroker, Some "c1" => Ok c1_record
  | _, _ => Err (ClusterNotFoundError "missing")
  end.

Definition no_cluster (b : Broker) (n : option string) : Result Dict :=
  Err (ClusterNotFoundError "missing").

Definition c1_spec : Kwargs := [("cluster_name", Some "c1")].

(** The cluster passed to a broker operation, if any. *)
Definition record_arg (c : Call) : option Dict :=
  match c with CResizeCluster _ r _ => Some r | _ => None end.

(** A record of a PKS cluster, following the spec's words: name, vdc taken
    from the last '--'-separated segment of the compute-profile name,
    status "lower(last-action) lower(status)", and the PKS tag. *)
Definition pks_record_spec (cluster : Dict) : ClusterRecord :=
  {| cr_name := dict_get cluster "name";
     cr_vdc := Some (last_item (split_dd
                 (dict_get_default cluster "compute-profile-name" "")));
     cr_status := Some (py_lower (dict_get_default cluster "last-action" "")
                        ++ " " ++ py_lower (dict_get_default cluster "status" ""))%string;
     cr_container_provider := Some CtrProvType_PKS |}.

(** A record of a vCD cluster: its name, vdc and status, and the vCD tag. *)
Definition vcd_record_spec (cluster : Dict) : ClusterRecord :=
  {| cr_name := dict_get cluster "name";
     cr_vdc := dict_get cluster "vdc";
     cr_status := dict_get cluster "status";
     cr_container_provider := Some CtrProvType_VCD |}.

(** [vdc_name]'s metadata, read for [org], makes it a PKS ovdc with
    context [c]. *)
Definition pks_owned (e : Env) (org : option string) (vdc_name : string)
    (c : Dict) : Prop :=
  ovdc_metadata e vdc_name org false = Ok c /\
  dict_get c CONTAINER_PROVIDER_KEY = Some CtrProvType_PKS.

(** What the loop of [collect_pks_ctx_dict] keeps true of [pks_ctx_dict]
    after reading the vdcs [done]. *)
Definition collect_inv (e : Env) (org : option string) (done : list string)
    (d : list (string * Dict)) : Prop :=
  NoDup (map fst d) /\
  (forall k v, In (k, v) d ->
     dict_get v "vc" = Some k /\ exists vdc, In vdc done /\ pks_owned e org vdc v) /\
  (forall vdc c, In vdc done -> pks_owned e org vdc c ->
     exists k, dict_get c "vc" = Some k /\ In k (map fst d)).

(** A PKS world for org "acme": "vdc1" and "vdc2" are PKS ovdcs backed by
    the same vCenter "vc1", "vdc3" a PKS ovdc on vCenter "vc2", and "vdc4"
    a vCD ovdc. *)
Definition pks_meta (ovdc : string) (org : option string) (_ : bool)
  : Result Dict :=
  match ovdc with
  | "vdc1" => Ok [(CONTAINER_PROVIDER_KEY, CtrProvType_PKS); ("vc", "vc1");
                 ("host", "pks1.acme")]
  | "vdc2" => Ok [(CONTAINER_PROVIDER_KEY, CtrProvType_PKS); ("vc", "vc1");
                 ("host", "pks2.acme")]
  | "vdc3" => Ok [(CONTAINER_PROVIDER_KEY, CtrProvType_PKS); ("vc", "vc2");
                 ("host", "pks3.acme")]
  | _ => Ok [(CONTAINER_PROVIDER_KEY, CtrProvType_VCD)]
  end.

(** No org of the world has an exclusive PKS account. *)
Definition shared_pks_cache : PksCache :=
  {| get_all_pks_account_info_in_system := [];
     do_orgs_have_exclusive_pks_account := false;
     get_exclusive_pks_accounts_info_for_org := fun _ => [] |}.

(** The cluster "c2", as the PKS broker of vCenter "vc2" reports it. *)
Definition c2_record : Dict :=
  [("name", "c2"); ("status", "SUCCEEDED"); ("last-action", "CREATE");
   ("compute-profile-name", "cp--a1b2--vdc3")].

Definition on_vc2 (b : Broker) : bool :=
  match b with
  | PKSBroker ctx => opt_str_eqb (dict_get ctx "vc") (Some "vc2")
  | VcdBroker => false
  end.

(** "c1" lives on vCD, "c2" on the PKS account of "vc2". *)
Definition world_cluster_info (b : Broker) (n : option string) : Result Dict :=
  match n with
  | Some "c1" => if on_vc2 b then Err (ClusterNotFoundError "missing")
                 else match b with
                      | VcdBroker => Ok (c1_record ++ [("vdc", "vdc4")])
                      | _ => Err (ClusterNotFoundError "missing")
                      end
  | Some "c2" => if on_vc2 b then Ok c2_record
                 else Err (ClusterNotFoundError "missing")
  | _ => Err (ClusterNotFoundError "missing")
  end.

Definition world_list_clusters (b : Broker) : Result (list Dict) :=
  match b with
  | VcdBroker => Ok [c1_record ++ [("vdc", "vdc4")]]
  | PKSBroker _ => if on_vc2 b then Ok [c2_record] else Ok []
  end.

(** The caller, not a system administrator, of org "acme"; [spec] is the
    request body. *)
Definition pks_env (spec : Dict)
    (cpp : Broker -> PksComputeProfileParams -> Result unit) : Env :=
  {| req_spec := spec;
     req_qparams := [];
     session := [("org", "acme")];
     is_sysadmin := false;
     pks_cache := Some shared_pks_cache;
     ovdc_metadata := pks_meta;
     org_vdc_names := ["vdc1"; "vdc2"; "vdc3"; "vdc4"];
     construct_pks_context := fun d => d;
     get_ovdc := fun _ => Ok "vdc3";
     get_pvdc_id := fun _ => Ok "pvdc2";
     build_ovdc_pks_context := fun _ _ _ ovdc _ =>
       match pks_meta ovdc (Some "acme") true with
       | Ok ctx => Ok ctx
       | Err x => Err x
       end;
     get_compute_profile_name := fun _ _ => "cp--a1b2--vdc3";
     set_ovdc_metadata := fun _ _ _ => Ok [("href", "task-42")];
     get_cluster_info := world_cluster_info;
     get_cluster_config := fun _ n => Ok ("config of " ++ py_str n)%string;
     list_clusters := world_list_clusters;
     create_cluster := fun _ _ => Ok "created";
     resize_cluster := fun _ _ _ => Ok "resized";
     delete_cluster := fun _ _ => Ok "deleted";
     create_compute_profile := cpp |}.

(** An enable request for "vdc3" with PKS. *)
Definition enable_spec : Dict :=
  [("ovdc_id", "id3"); ("org_name", "acme"); ("ovdc_name", "vdc3");
   ("pks_plans", "small"); (CONTAINER_PROVIDER_KEY, CtrProvType_PKS)].

Definition conflict_cp (b : Broker) (p : PksComputeProfileParams) : Result unit :=
  Err (PksServerError HTTPStatus_CONFLICT).

Definition created_cp (b : Broker) (p : PksComputeProfileParams) : Result unit :=
  Ok tt.

(** The accounts the world enumerates for org "acme": "vdc2" has replaced
    "vdc1" under the key "vc1". *)
Definition vc1_account : Dict :=
  [(CONTAINER_PROVIDER_KEY, CtrProvType_PKS); ("vc", "vc1"); ("host", "pks2.acme")].

Definition vc2_account : Dict :=
  [(CONTAINER_PROVIDER_KEY, CtrProvType_PKS); ("vc", "vc2"); ("host", "pks3.acme")].

Definition world_accounts : list Dict := [vc1_account; vc2_account].

Definition world_env : Env := pks_env [] created_cp.

(** The same caller, naming the vdc "vdc3" in the request. *)
Definition vdc3_env : Env := pks_env [("vdc", "vdc3")] created_cp.

(** Enabling "vdc3", whose compute profile already exists. *)
Definition enable_env : Env := pks_env enable_spec conflict_cp.

Definition c2_spec : Kwargs := [("cluster_name", Some "c2")].

Definition c9_spec : Kwargs := [("cluster_name", Some "c9")].

(** The orgs the vCD client of the world shows: "acme" with three vdcs,
    and "beta", seen by a system administrator only. *)
Definition acme_org : OrgResource :=
  {| org_get_name := "acme"; org_list_vdcs := ["vdc1"; "vdc3"; "vdc4"] |}.

Definition beta_org : OrgResource :=
  {| org_get_name := "beta"; org_list_vdcs := ["vdc5"] |}.

Definition world_view : VcdView :=
  {| metadata_by_id := fun _ => pks_meta "vdc3" (Some "acme") true;
     get_org_list := [acme_org; beta_org];
     own_org_resources := [acme_org];
     metadata_without_credentials := fun vdc org => pks_meta vdc org false |}.

(** The world with other ovdc metadata and other cluster listings. *)
Definition variant_env (meta : string -> option string -> bool -> Result Dict)
    (lc : Broker -> Result (list Dict)) : Env :=
  {| req_spec := [];
     req_qparams := [];
     session := [("org", "acme")];
     is_sysadmin := false;
     pks_cache := Some shared_pks_cache;
     ovdc_metadata := meta;
     org_vdc_names := ["vdc1"; "vdc2"; "vdc3"; "vdc4"];
     construct_pks_context := fun d => d;
     get_ovdc := fun _ => Ok "vdc3";
     get_pvdc_id := fun _ => Ok "pvdc2";
     build_ovdc_pks_context := fun _ _ _ ovdc _ => meta ovdc (Some "acme") true;
     get_compute_profile_name := fun _ _ => "cp--a1b2--vdc3";
     set_ovdc_metadata := fun _ _ _ => Ok [("href", "task-42")];
     get_cluster_info := world_cluster_info;
     get_cluster_config := fun _ n => Ok ("config of " ++ py_str n)%string;
     list_clusters := lc;
     create_cluster := fun _ _ => Ok "created";
     resize_cluster := fun _ _ _ => Ok "resized";
     delete_cluster := fun _ _ => Ok "deleted";
     create_compute_profile := created_cp |}.

(** The PKS account of "vc2" is recorded without its host. *)
Definition vc2_hostless : Dict :=
  [(CONTAINER_PROVIDER_KEY, CtrProvType_PKS); ("vc", "vc2")].

Definition hostless_meta (ovdc : string) (org : option string) (b : bool)
  : Result Dict :=
  match ovdc with
  | "vdc3" => Ok vc2_hostless
  | _ => pks_meta ovdc org b
  end.

Definition hostless_env : Env := variant_env hostless_meta world_list_clusters.

(** "c2" as the PKS broker of "vc2" lists it, without a status. *)
Definition c2_statusless : Dict :=
  [("name", "c2"); ("last-action", "CREATE");
   ("compute-profile-name", "cp--a1b2--vdc3")].

Definition statusless_list_clusters (b : Broker) : Result (list Dict) :=
  match b with
  | VcdBroker => Ok [c1_record ++ [("vdc", "vdc4")]]
  | PKSBroker _ => if on_vc2 b then Ok [c2_statusless] else Ok []
  end.

Definition statusless_env : Env := variant_env pks_meta statusless_list_clusters.

(** A vdc whose metadata names no known container provider. *)
Definition unenabled_meta (ovdc : string) (org : option string) (_ : bool)
  : Result Dict :=
  Ok [(CONTAINER_PROVIDER_KEY, "none")].

(** An enable request for vCD. *)
Definition vcd_enable_spec : Dict :=
  [("ovdc_id", "id4"); ("org_name", "acme"); ("ovdc_name", "vdc4");
   ("pks_plans", ""); (CONTAINER_PROVIDER_KEY, CtrProvType_VCD)].

(** A create request for "c9", as [invoke] reads it. *)
Definition c9_request_env : Env := pks_env [("cluster_name", "c9")] created_cp.

(** The vCD enable request, for an ovdc whose pvdc cannot be found. *)
Definition pvdc_missing_env : Env :=
  {| req_spec := vcd_enable_spec;
     req_qparams := [];
     session := [("org", "acme")];
     is_sysadmin := false;
     pks_cache := None;
     ovdc_metadata := vcd_owned_meta;
     org_vdc_names := [];
     construct_pks_context := fun d => d;
     get_ovdc := fun _ => Ok "vdc3";
     get_pvdc_id := fun _ => Err (OtherError "no pvdc");
     build_ovdc_pks_context := fun _ _ _ _ _ => Err (OtherError "no pks");
     get_compute_profile_name := fun _ _ => "cp";
     set_ovdc_metadata := fun _ _ _ => Ok [("href", "task1")];
     get_cluster_info := no_cluster;
     get_cluster_config := fun _ _ => Ok "config";
     list_clusters := fun _ => Ok [];
     create_cluster := fun _ _ => Ok "created";
     resize_cluster := fun _ _ _ => Ok "resized";
     delete_cluster := fun _ _ => Ok "deleted";
     create_compute_profile := fun _ _ => Ok tt |}.

(** ** Reference definitions for the dispatcher *)

(** The operation a state-changing call belongs to; [None] for a read. *)
Definition mutation_of (c : Call) : option Operation :=
  match c with
  | CCreateCluster _ _ => Some CREATE_CLUSTER
  | CResizeCluster _ _ _ => Some RESIZE_CLUSTER
  | CDeleteCluster _ _ => Some DELETE_CLUSTER
  | CCreateComputeProfile _ _ | CSetOvdcMetadata _ _ _ => Some ENABLE_OVDC
  | _ => None
  end.

(** Every call [m] adds to the trace satisfies [P]. *)
Definition OnlyCalls (P : Call -> Prop) {A} (m : M A) : Prop :=
  forall e tr c, In c (snd (m e tr)) -> In c tr \/ P c.

Definition is_read (c : Call) : Prop := mutation_of c = None.

(** A call [invoke op] may make: a read, or a change of [op]'s own kind. *)
Definition op_calls (op : Operation) (c : Call) : Prop :=
  mutation_of c = None \/ mutation_of c = Some op.

(** [s] contains ['--']. *)
Fixpoint has_dd (s : string) : bool :=
  match s with
  | String "-"%char (String "-"%char _) => true
  | String _ rest => has_dd rest
  | EmptyString => false
  end.

(** [s.startswith('-')] *)
Definition starts_with_dash (s : string) : bool :=
  match s with String c _ => Ascii.eqb c "-"%char | EmptyString => false end.

(** [s.endswith('-')] *)
Fixpoint ends_with_dash (s : string) : bool :=
  match s with
  | EmptyString => false
  | String c EmptyString => Ascii.eqb c "-"%char
  | String _ rest => ends_with_dash rest
  end.

(** The vdc entries [_list_ovdcs] is to produce: one per vdc of each org,
    in order. *)
Definition org_vdc_pairs (orgs : list OrgResource) : list (OrgResource * string) :=
  flat_map (fun o => map (fun vdc => (o, vdc)) (org_list_vdcs o)) orgs.

Definition ovdc_entry (v : VcdView) (p : OrgResource * string) (d : Dict) : Prop :=
  exists ctx prov,
    metadata_without_credentials v (snd p) (Some (org_get_name (fst p))) = Ok ctx /\
    dict_get ctx CONTAINER_PROVIDER_KEY = Some prov /\
    d = [("org", org_get_name (fst p)); ("name", snd p); (CONTAINER_PROVIDER_KEY, prov)].

(** ** Traces only grow *)

Definition Frames {A} (m : M A) : Prop :=
  forall e tr, m e tr = (fst (m e []), tr ++ snd (m e [])).

Lemma frames_ret {A} (a : A) : Frames (ret a).
Proof. intros e tr. cbn. now rewrite app_nil_r. Qed.

Lemma frames_raise {A} (x : Exn) : Frames (@raise A x).
Proof. intros e tr. cbn. now rewrite app_nil_r. Qed.

Lemma frames_lift {A} (r : Result A) : Frames (lift r).
Proof. intros e tr. cbn. now rewrite app_nil_r. Qed.

Lemma frames_ask : Frames ask.
Proof. intros e tr. cbn. now rewrite app_nil_r. Qed.

Lemma frames_call {A} (c : Call) (answer : Env -> Result A) :
  Frames (call c answer).
Proof. intros e tr. reflexivity. Qed.

Lemma frames_bind {A B} (m : M A) (f : A -> M B) :
  Frames m -> (forall a, Frames (f a)) -> Frames (bind m f).
Proof.
  intros Hm Hf e tr. unfold bind.
  rewrite (Hm e tr). destruct (m e []) as [[a|x] t] eqn:E; cbn.
  - rewrite (Hf a e (tr ++ t)), (Hf a e t). cbn. now rewrite app_assoc.
  - reflexivity.
Qed.

Lemma frames_try {A} (m : M A) (h : Exn -> M A) :
  Frames m -> (forall x, Frames (h x)) -> Frames (try_except m h).
Proof.
  intros Hm Hh e tr. unfold try_except.
  rewrite (Hm e tr). destruct (m e []) as [[a|x] t] eqn:E; cbn.
  - reflexivity.
  - rewrite (Hh x e (tr ++ t)), (Hh x e t). cbn. now rewrite app_assoc.
Qed.

Create HintDb frames.

Ltac frames_tac :=
  repeat first
    [ solve [auto with frames]
    | apply frames_bind; [| intro]
    | apply frames_try; [| intro]
    | apply frames_ret | apply frames_raise | apply frames_lift
    | apply frames_ask | apply frames_call
    | match goal with
      | |- Frames (match ?x with _ => _ end) => destruct x
      | |- Frames (if ?b then _ else _) => destruct b
      end
    | progress cbv beta zeta ].

Lemma frames_get_broker : Frames get_broker_based_on_vdc.
Proof.
  unfold get_broker_based_on_vdc, get_ovdc_container_provider_metadata.
  frames_tac.
Qed.
#[local] Hint Resolve frames_get_broker : frames.


Lemma frames_collect org names d : Frames (collect_pks_ctx_dict org names d).
Proof.
  revert d. induction names as [|n names IH]; intro d; cbn -[bind].
  - apply frames_ret.
  - unfold get_ovdc_container_provider_metadata. frames_tac; apply IH.
Qed.

Lemma frames_enum : Frames _create_pks_context_for_all_accounts_in_org.
Proof.
  unfold _create_pks_context_for_all_accounts_in_org. frames_tac.
  all: apply frames_collect.
Qed.
#[local] Hint Resolve frames_enum : frames.


Lemma frames_find_pks n l : Frames (find_cluster_in_pks_contexts n l).
Proof.
  induction l as [|c l IH]; cbn -[bind try_except].
  - apply frames_ret.
  - unfold broker_get_cluster_info. frames_tac; apply IH.
Qed.

#[local] Hint Resolve frames_find_pks : frames.


Lemma frames_find n : Frames (_find_cluster_in_org n).
Proof.
  unfold _find_cluster_in_org, broker_get_cluster_info. frames_tac.
Qed.
#[local] Hint Resolve frames_find : frames.


Lemma broker_calls_app t1 t2 :
  broker_calls (t1 ++ t2) = broker_calls t1 ++ broker_calls t2.
Proof. apply filter_app. Qed.

Lemma collect_no_broker_calls org names d e :
  broker_calls (snd (collect_pks_ctx_dict org names d e [])) = [].
Proof.
  revert d. induction names as [|n names IH]; intro d; [reflexivity|].
  cbn [collect_pks_ctx_dict]. cbn -[collect_pks_ctx_dict].
  destruct (ovdc_metadata e n org false) as [ctx|x]; [|reflexivity].
  destruct (dict_subscript ctx CONTAINER_PROVIDER_KEY) as [prov|x]; [|reflexivity].
  destruct (prov =? CtrProvType_PKS).
  - cbn -[collect_pks_ctx_dict].
    destruct (dict_subscript ctx "vc") as [vc|x]; [|reflexivity].
    rewrite frames_collect. cbn. apply IH.
  - rewrite frames_collect. cbn. apply IH.
Qed.

Lemma enum_no_broker_calls e :
  broker_calls (snd (_create_pks_context_for_all_accounts_in_org e [])) = [].
Proof.
  unfold _create_pks_context_for_all_accounts_in_org. cbn -[collect_pks_ctx_dict].
  destruct (pks_cache e) as [pc|]; [|reflexivity].
  destruct (is_sysadmin e); [reflexivity|].
  destruct (do_orgs_have_exclusive_pks_account pc); [reflexivity|].
  pose proof (collect_no_broker_calls (dict_get (session e) "org")
                (org_vdc_names e) [] e) as H.
  unfold bind. destruct (collect_pks_ctx_dict _ _ _ e []) as [[a|x] t];
    cbn in *; exact H.
Qed.

Lemma find_in_pks_contexts_spec n l e tr :
  Forall has_host l ->
  find_cluster_in_pks_contexts n l e tr =
  (Ok (first_hit e n (map PKSBroker l)),
   tr ++ probe_calls n (probed e n (map PKSBroker l))).
Proof.
  intro Hh. revert tr. induction Hh as [|c l Hc Hl IH]; intro tr.
  - cbn. now rewrite app_nil_r.
  - cbn [find_cluster_in_pks_contexts first_hit probed map].
    unfold try_except, bind, broker_get_cluster_info, call.
    destruct (get_cluster_info e (PKSBroker c) n) as [d|x]; cbn -[find_cluster_in_pks_contexts].
    + reflexivity.
    + unfold has_host, dict_subscript in *.
      destruct (dict_get c "host"); [|congruence].
      rewrite IH. now rewrite <- app_assoc.
Qed.

Lemma broker_calls_probe_calls n bs :
  broker_calls (probe_calls n bs) = probe_calls n bs.
Proof.
  unfold broker_calls. induction bs as [|b bs IH]; cbn; [reflexivity|]. now f_equal.
Qed.

(** The search, once the accounts are enumerated. *)
Lemma find_cluster_in_org_spec n e accts :
  fst (_create_pks_context_for_all_accounts_in_org e []) = Ok accts ->
  Forall has_host accts ->
  fst (_find_cluster_in_org n e []) = Ok (first_hit e n (candidates accts)) /\
  broker_calls (snd (_find_cluster_in_org n e [])) =
  probe_calls n (probed e n (candidates accts)).
Proof.
  intros Henum Hh.
  unfold _find_cluster_in_org, try_except, bind, broker_get_cluster_info, call.
  cbn [app]. unfold candidates. cbn [first_hit probed].
  destruct (get_cluster_info e VcdBroker n) as [d|x] eqn:Hv; [split; reflexivity|].
  rewrite frames_enum. pose proof (enum_no_broker_calls e) as Hnb.
  destruct (_create_pks_context_for_all_accounts_in_org e []) as [r t].
  cbn in Henum, Hnb |- *. subst r.
  rewrite find_in_pks_contexts_spec by exact Hh. cbn. split; [reflexivity|].
  unfold broker_calls in *. rewrite filter_app, Hnb. fold (broker_calls (probe_calls n (probed e n (map PKSBroker accts)))). now rewrite broker_calls_probe_calls.
Qed.

Lemma first_hit_none_iff e n bs :
  first_hit e n bs = None <-> forallb (probe_fails e n) bs = true.
Proof.
  induction bs as [|b bs IH]; cbn; [tauto|].
  unfold probe_fails at 1.
  destruct (get_cluster_info e b n); cbn; [split; discriminate|exact IH].
Qed.

Lemma first_hit_some e n bs c b :
  first_hit e n bs = Some (c, b) -> get_cluster_info e b n = Ok c.
Proof.
  induction bs as [|b' bs IH]; cbn; [discriminate|].
  destruct (get_cluster_info e b' n) eqn:H; [|exact IH].
  intro E. inversion E; subst. exact H.
Qed.

(** [_find_cluster_in_org] from a given trace, for the callers. *)
Lemma find_cluster_in_org_run n e accts tr :
  fst (_create_pks_context_for_all_accounts_in_org e []) = Ok accts ->
  Forall has_host accts ->
  exists t, _find_cluster_in_org n e tr = (Ok (first_hit e n (candidates accts)), tr ++ t)
       /\ broker_calls t = probe_calls n (probed e n (candidates accts)).
Proof.
  intros Henum Hh. destruct (find_cluster_in_org_spec n e accts Henum Hh) as [H1 H2].
  exists (snd (_find_cluster_in_org n e [])). rewrite frames_find, H1. auto.
Qed.

Lemma create_calls_app t1 t2 :
  create_calls (t1 ++ t2) = create_calls t1 ++ create_calls t2.
Proof. apply filter_app. Qed.

Lemma create_calls_of_broker_calls t :
  create_calls t = create_calls (broker_calls t).
Proof.
  unfold create_calls, broker_calls. induction t as [|c t IH]; [reflexivity|].
  destruct c; cbn; rewrite ?IH; reflexivity.
Qed.

Lemma create_calls_probe_calls n bs : create_calls (probe_calls n bs) = [].
Proof. induction bs; cbn; auto. Qed.

Ltac split_answers :=
  repeat (cbn; match goal with
               | |- context [match ?x with _ => _ end] => destruct x eqn:?
               end).

Lemma get_broker_no_broker_calls e :
  broker_calls (snd (get_broker_based_on_vdc e [])) = [].
Proof.
  unfold get_broker_based_on_vdc, get_ovdc_container_provider_metadata, call, bind.
  split_answers; reflexivity.
Qed.

Lemma get_broker_no_create_calls e :
  create_calls (snd (get_broker_based_on_vdc e [])) = [].
Proof. now rewrite create_calls_of_broker_calls, get_broker_no_broker_calls. Qed.

(** ** Claims *)

Ltac create_cluster_prelude kw n e accts Henum Hh Hkw HR Hct :=
  let t := fresh "t" in
  let Hrun := fresh "Hrun" in
  let Hbc := fresh "Hbc" in
  let R := fresh "R" in
  destruct (find_cluster_in_org_run n e accts [] Henum Hh) as [t [Hrun Hbc]];
  assert (Hct : create_calls t = [])
    by (now rewrite create_calls_of_broker_calls, Hbc, create_calls_probe_calls);
  remember (_create_cluster kw e []) as R eqn:HR;
  unfold _create_cluster, bind, lift, kwargs_subscript in HR; rewrite Hkw in HR;
  cbn -[_find_cluster_in_org get_broker_based_on_vdc truthy_dict first_hit
         candidates already_found_msg] in HR;
  rewrite Hrun in HR;
  cbn -[get_broker_based_on_vdc truthy_dict first_hit candidates
         already_found_msg] in HR.

Lemma create_cluster_found kw n e accts :
  kwargs_get kw "cluster_name" = Some n ->
  fst (_create_pks_context_for_all_accounts_in_org e []) = Ok accts ->
  Forall has_host accts ->
  hits_are_truthy e n ->
  forallb (probe_fails e n) (candidates accts) = false ->
  fst (_create_cluster kw e []) = Err (CseServerError (already_found_msg n)) /\
  create_calls (snd (_create_cluster kw e [])) = [].
Proof.
  intros Hkw Henum Hh Ht Hall.
  create_cluster_prelude kw n e accts Henum Hh Hkw HR Hct.
  destruct (first_hit e n (candidates accts)) as [[c b]|] eqn:Hfh.
  - rewrite (Ht b c (first_hit_some _ _ _ _ _ Hfh)) in HR. subst. cbn. auto.
  - apply first_hit_none_iff in Hfh. congruence.
Qed.

Lemma create_cluster_not_found kw n e accts :
  kwargs_get kw "cluster_name" = Some n ->
  fst (_create_pks_context_for_all_accounts_in_org e []) = Ok accts ->
  Forall has_host accts ->
  forallb (probe_fails e n) (candidates accts) = true ->
  match fst (get_broker_based_on_vdc e []) with
  | Ok b =>
      fst (_create_cluster kw e []) = create_cluster e b kw /\
      create_calls (snd (_create_cluster kw e [])) = [CCreateCluster b kw]
  | Err x =>
      fst (_create_cluster kw e []) = Err x /\
      create_calls (snd (_create_cluster kw e [])) = []
  end.
Proof.
  intros Hkw Henum Hh Hall.
  create_cluster_prelude kw n e accts Henum Hh Hkw HR Hct.
  apply first_hit_none_iff in Hall. rewrite Hall in HR.
  cbn -[get_broker_based_on_vdc broker_create_cluster] in HR.
  rewrite frames_get_broker in HR.
  pose proof (get_broker_no_create_calls e) as Hg.
  destruct (get_broker_based_on_vdc e []) as [[b|x] tg]; cbn [snd] in Hg;
    cbn -[create_calls] in HR; subst; cbn [fst snd].
  - split; [reflexivity|].
    unfold broker_create_cluster, call. cbn [snd].
    rewrite !create_calls_app, Hct, Hg. reflexivity.
  - split; [reflexivity|]. rewrite create_calls_app, Hct, Hg. reflexivity.
Qed.

(** C1: a create-cluster request whose name is found on some candidate
    (the vCD broker, or a PKS broker of an enumerated account) raises the
    "already found" [CseServerError] and makes no [create_cluster] call;
    when every candidate misses, exactly one [create_cluster] call is made,
    to the broker [get_broker_based_on_vdc] resolves (and none when that
    resolution raises, whose error is returned). *)
Theorem create_cluster_duplicate_or_delegate kw n e accts :
  kwargs_get kw "cluster_name" = Some n ->
  fst (_create_pks_context_for_all_accounts_in_org e []) = Ok accts ->
  Forall has_host accts ->
  hits_are_truthy e n ->
  (forallb (probe_fails e n) (candidates accts) = false ->
   fst (_create_cluster kw e []) = Err (CseServerError (already_found_msg n)) /\
   create_calls (snd (_create_cluster kw e [])) = []) /\
  (forallb (probe_fails e n) (candidates accts) = true ->
   match fst (get_broker_based_on_vdc e []) with
   | Ok b =>
       fst (_create_cluster kw e []) = create_cluster e b kw /\
       create_calls (snd (_create_cluster kw e [])) = [CCreateCluster b kw]
   | Err x =>
       fst (_create_cluster kw e []) = Err x /\
       create_calls (snd (_create_cluster kw e [])) = []
   end).
Proof.
  intros Hkw Henum Hh Ht. split.
  - exact (create_cluster_found kw n e accts Hkw Henum Hh Ht).
  - exact (create_cluster_not_found kw n e accts Hkw Henum Hh).
Qed.

(** C2: the ownership-unknown search probes the vCD broker first, then the
    PKS brokers of the enumerated accounts in enumeration order; it returns
    the first broker whose [get_cluster_info] succeeds, with its answer, and
    makes no broker call after that one (the broker calls it makes are
    exactly the probes up to the first hit). *)
Theorem find_cluster_in_org_first_hit n e accts :
  fst (_create_pks_context_for_all_accounts_in_org e []) = Ok accts ->
  Forall has_host accts ->
  fst (_find_cluster_in_org n e []) =
    Ok (first_hit e n (VcdBroker :: map PKSBroker accts)) /\
  broker_calls (snd (_find_cluster_in_org n e [])) =
    probe_calls n (probed e n (VcdBroker :: map PKSBroker accts)).
Proof. exact (find_cluster_in_org_spec n e accts). Qed.

(** C3: with no vdc in the request, a failing [get_cluster_info] of a
    candidate is a miss: [_get_cluster_info] raises [ClusterNotFoundError]
    exactly when every candidate fails, and otherwise returns the first hit;
    [_get_cluster_config] raises [ClusterNotFoundError] when every candidate
    fails, and otherwise asks the first broker that found the cluster for
    the config of [cluster['name']]. *)
Theorem search_not_found_iff_all_fail kw n e accts :
  kwargs_get kw "cluster_name" = Some n ->
  is_ovdc_present_in_request e = false ->
  fst (_create_pks_context_for_all_accounts_in_org e []) = Ok accts ->
  Forall has_host accts ->
  hits_are_truthy e n ->
  (fst (_get_cluster_info kw e []) = Err (ClusterNotFoundError (not_found_msg n))
   <-> forallb (probe_fails e n) (candidates accts) = true) /\
  (forall c b, first_hit e n (candidates accts) = Some (c, b) ->
   fst (_get_cluster_info kw e []) = Ok (c, b)) /\
  (forallb (probe_fails e n) (candidates accts) = true ->
   fst (_get_cluster_config kw e []) = Err (ClusterNotFoundError (not_found_msg n))) /\
  (forall c b, first_hit e n (candidates accts) = Some (c, b) ->
   fst (_get_cluster_config kw e []) =
   match dict_get c "name" with
   | Some name => get_cluster_config e b (Some name)
   | None => Err (KeyError "name")
   end).
Proof.
  intros Hkw Hpres Henum Hh Ht.
  destruct (find_cluster_in_org_run n e accts [] Henum Hh) as [t [Hrun _]].
  remember (_get_cluster_info kw e []) as R eqn:HR.
  remember (_get_cluster_config kw e []) as Q eqn:HQ.
  unfold _get_cluster_info, bind, lift, kwargs_subscript, ask in HR.
  unfold _get_cluster_config, bind, lift, kwargs_subscript, ask in HQ.
  rewrite Hkw, Hpres in HR, HQ.
  cbn -[_find_cluster_in_org truthy_dict first_hit candidates not_found_msg]
    in HR, HQ.
  rewrite Hrun in HR, HQ.
  cbn -[truthy_dict first_hit candidates not_found_msg] in HR, HQ.
  destruct (first_hit e n (candidates accts)) as [[c b]|] eqn:Hfh.
  - assert (Hfail : forallb (probe_fails e n) (candidates accts) = false).
    { destruct (forallb _ _) eqn:E; [|reflexivity].
      apply first_hit_none_iff in E. congruence. }
    rewrite (Ht b c (first_hit_some _ _ _ _ _ Hfh)) in HR, HQ.
    subst R Q. rewrite Hfail. cbn -[dict_get].
    split; [split; discriminate|].
    split; [intros c' b' E; now inversion E|].
    split; [discriminate|].
    intros c' b' E; inversion E; subst.
    unfold dict_subscript. destruct (dict_get c' "name"); reflexivity.
  - apply first_hit_none_iff in Hfh. rewrite Hfh.
    subst R Q. cbn [fst].
    split; [tauto|]. split; [discriminate|]. split; [reflexivity|discriminate].
Qed.

Lemma frames_get_cluster_info kw : Frames (_get_cluster_info kw).
Proof.
  unfold _get_cluster_info, broker_get_cluster_info. frames_tac.
Qed.
#[local] Hint Resolve frames_get_cluster_info : frames.

Lemma get_broker_direct e ovdc org ctx tr :
  req_vdc e = Some ovdc -> ovdc <> "" -> req_org e = Some org -> org <> "" ->
  ovdc_metadata e ovdc (Some org) true = Ok ctx -> valid_owner ctx ->
  get_broker_based_on_vdc e tr =
  (Ok (broker_of_ctx ctx), tr ++ [CGetOvdcMetadata ovdc (Some org) true]).
Proof.
  intros Hv Hv' Ho Ho' Hm Hval.
  unfold get_broker_based_on_vdc, bind, ask, get_ovdc_container_provider_metadata, call.
  rewrite Hv, Ho. cbn [truthy_str].
  apply String.eqb_neq in Hv', Ho'. rewrite Hv', Ho'. cbn. rewrite Hm.
  unfold broker_of_ctx. destruct Hval as [H|H]; rewrite H; reflexivity.
Qed.

Lemma frames_extends {A} (m : M A) e tr :
  Frames m -> snd (m e tr) = tr ++ snd (m e []).
Proof. intro H. now rewrite H. Qed.

Lemma get_ovdc_params_no_calls e : snd (_get_ovdc_params e []) = [].
Proof.
  unfold _get_ovdc_params, bind, ask, lift, raise, ret.
  split_answers; reflexivity.
Qed.

(** C4 (counterexample): delete resolves the cluster ([c1_record] on vCD)
    but passes only the name to [delete_cluster]: no call of the delete
    operation receives the resolved record. *)
Lemma delete_does_not_pass_record :
  let e := sample_env [] vcd_owned_meta c1_on_vcd in
  fst (_get_cluster_info c1_spec e []) = Ok (c1_record, VcdBroker) /\
  snd (_delete_cluster c1_spec e []) =
    [CGetClusterInfo VcdBroker (Some "c1"); CDeleteCluster VcdBroker (Some "c1")] /\
  Forall (fun c => record_arg c <> Some c1_record) (snd (_delete_cluster c1_spec e [])).
Proof.
  vm_compute. split; [reflexivity|]. split; [reflexivity|].
  repeat constructor; discriminate.
Qed.

(** C4 (amended): resize passes the cluster record resolved by
    [_get_cluster_info] to [resize_cluster] as [curr_cluster_info]; delete
    uses the resolution only to pick the broker and passes the cluster name
    to [delete_cluster]. *)
Theorem resize_passes_record_delete_passes_name kw n e c b :
  kwargs_get kw "cluster_name" = Some n ->
  fst (_get_cluster_info kw e []) = Ok (c, b) ->
  _resize_cluster kw e [] =
    (resize_cluster e b c kw,
     snd (_get_cluster_info kw e []) ++ [CResizeCluster b c kw]) /\
  _delete_cluster kw e [] =
    (delete_cluster e b n,
     snd (_get_cluster_info kw e []) ++ [CDeleteCluster b n]).
Proof.
  intros Hkw Hg. split.
  - unfold _resize_cluster, bind at 1.
    destruct (_get_cluster_info kw e []) as [r t]. cbn in Hg. subst r. reflexivity.
  - unfold _delete_cluster, bind at 1, lift, kwargs_subscript. rewrite Hkw.
    cbn [app]. unfold bind.
    destruct (_get_cluster_info kw e []) as [r t]. cbn in Hg. subst r. reflexivity.
Qed.

(** C5 (counterexample): with the explicit, vCD-owned vdc "vdc1" of org
    "acme" in the request, create-cluster still runs the ownership-unknown
    search first: its first call is the vCD probe, and it makes two broker
    calls. *)
Lemma create_with_vdc_enters_search :
  let e := sample_env [("vdc", "vdc1"); ("org", "acme")] vcd_owned_meta no_cluster in
  is_ovdc_present_in_request e = true /\
  snd (_create_cluster c1_spec e []) =
    [CGetClusterInfo VcdBroker (Some "c1");
     CGetOvdcMetadata "vdc1" (Some "acme") true;
     CCreateCluster VcdBroker c1_spec] /\
  length (broker_calls (snd (_create_cluster c1_spec e []))) = 2.
Proof. vm_compute. auto. Qed.

(** C5 (amended): with an explicit, validly owned vdc (and an org from the
    request or the session), get-cluster-info, get-cluster-config and
    list-clusters make one ovdc-metadata lookup and then exactly one broker
    call, to the broker the lookup designates, with no search; resize and
    delete make the lookup and then two calls on that broker
    ([get_cluster_info], then the operation), with no search;
    create-cluster always runs the whole ownership-unknown search first,
    and only when it finds nothing makes the ovdc-metadata lookup and then
    the create call on the broker the lookup designates. *)
Theorem explicit_vdc_direct_resolution kw n e ovdc org ctx :
  kwargs_get kw "cluster_name" = Some n ->
  req_vdc e = Some ovdc -> ovdc <> "" -> req_org e = Some org -> org <> "" ->
  ovdc_metadata e ovdc (Some org) true = Ok ctx -> valid_owner ctx ->
  let lookup := CGetOvdcMetadata ovdc (Some org) true in
  let b := broker_of_ctx ctx in
  snd (_get_cluster_info kw e []) = [lookup; CGetClusterInfo b n] /\
  snd (_get_cluster_config kw e []) = [lookup; CGetClusterConfig b n] /\
  snd (_list_clusters e []) = [lookup; CListClusters b] /\
  (forall c, get_cluster_info e b n = Ok c ->
   snd (_resize_cluster kw e []) =
     [lookup; CGetClusterInfo b n; CResizeCluster b c kw] /\
   snd (_delete_cluster kw e []) =
     [lookup; CGetClusterInfo b n; CDeleteCluster b n]) /\
  _create_cluster kw e [] =
    (let (r, t) := _find_cluster_in_org n e [] in
     match r with
     | Err x => (Err x, t)
     | Ok hit =>
         if match hit with Some (c, _) => truthy_dict c | None => false end
         then (Err (CseServerError (already_found_msg n)), t)
         else (create_cluster e b kw, t ++ [lookup; CCreateCluster b kw])
     end).
Proof.
  intros Hkw Hv Hv' Ho Ho' Hm Hval. cbv zeta.
  assert (Hp : is_ovdc_present_in_request e = true).
  { unfold is_ovdc_present_in_request. rewrite Hv. cbn.
    apply String.eqb_neq in Hv'. now rewrite Hv'. }
  pose proof (fun tr => get_broker_direct e ovdc org ctx tr Hv Hv' Ho Ho' Hm Hval)
    as Hgb.
  assert (Hinfo : _get_cluster_info kw e [] =
                  (match get_cluster_info e (broker_of_ctx ctx) n with
                   | Ok c => Ok (c, broker_of_ctx ctx) | Err x => Err x end,
                   [CGetOvdcMetadata ovdc (Some org) true;
                    CGetClusterInfo (broker_of_ctx ctx) n])).
  { unfold _get_cluster_info, bind, lift, kwargs_subscript, ask.
    rewrite Hkw, Hp. cbn -[get_broker_based_on_vdc]. rewrite Hgb. cbn.
    now destruct (get_cluster_info e (broker_of_ctx ctx) n). }
  split; [now rewrite Hinfo|].
  split.
  { unfold _get_cluster_config, bind, lift, kwargs_subscript, ask.
    rewrite Hkw, Hp. cbn -[get_broker_based_on_vdc]. now rewrite Hgb. }
  split.
  { unfold _list_clusters, bind, ask. rewrite Hp.
    cbn -[get_broker_based_on_vdc]. rewrite Hgb. cbn. now destruct (list_clusters e (broker_of_ctx ctx)). }
  split.
  { intros c Hc. split.
    - unfold _resize_cluster, bind at 1. rewrite Hinfo, Hc. reflexivity.
    - unfold _delete_cluster, bind at 1, lift, kwargs_subscript. rewrite Hkw.
      cbn [app]. unfold bind. rewrite Hinfo, Hc. reflexivity. }
  unfold _create_cluster, bind at 1, lift at 1, kwargs_subscript. rewrite Hkw.
  cbn [app]. unfold bind at 1.
  destruct (_find_cluster_in_org n e []) as [[hit|x] t]; [|reflexivity].
  cbv beta iota.
  destruct (match hit with Some (c, _) => truthy_dict c | None => false end)
    eqn:Hf; destruct hit as [[c b']|]; cbn in Hf |- *; rewrite ?Hf; cbn;
    try reflexivity; try discriminate;
    unfold bind, broker_create_cluster, call; rewrite Hgb; cbn;
    now rewrite <- app_assoc.
Qed.

Lemma split_compute_profile_name :
  last_item (split_dd "cp--f3272127-9b7f-4f90-8849-0ee70a28be56--vdc-PKS1")
  = "vdc-PKS1".
Proof. reflexivity. Qed.

Lemma split_keeps_odd_dash : split_dd "a---b" = ["a"; "-b"].
Proof. reflexivity. Qed.

Lemma truncated_total cluster b status :
  dict_get cluster "status" = Some status ->
  exists r, _get_truncated_cluster_info cluster b = Ok r.
Proof.
  intro H. unfold _get_truncated_cluster_info. cbn [cr_status set_vdc common_properties].
  rewrite H. eexists. reflexivity.
Qed.

(** C6: whenever the projection of a PKS cluster succeeds (it raises when
    the cluster has no status), its status is the lower-cased last action,
    a space and the lower-cased status, and its vdc is the last
    '--'-separated segment of the compute-profile name ([''] when there is
    none). *)
Theorem pks_projection_status_and_vdc cluster b r :
  _get_truncated_cluster_info cluster b = Ok r ->
  exists status,
    dict_get cluster "status" = Some status /\
    cr_status r = Some (py_lower (dict_get_default cluster "last-action" "")
                        ++ " " ++ py_lower status)%string /\
    cr_vdc r = Some (last_item (split_dd
                 (dict_get_default cluster "compute-profile-name" ""))).
Proof.
  unfold _get_truncated_cluster_info. cbn [cr_status set_vdc common_properties].
  destruct (dict_get cluster "status") as [status|]; [|discriminate].
  intro E. inversion E; subst r. exists status. split; [reflexivity|].
  split; [reflexivity|]. cbn [cr_vdc set_status set_vdc].
  destruct (dict_get_default cluster "compute-profile-name" "") as [|c s];
    reflexivity.
Qed.

Lemma truncate_pks_clusters_ok b cs l :
  truncate_pks_clusters b cs = Ok l -> l = map pks_record_spec cs.
Proof.
  revert l. induction cs as [|c cs IH]; intros l H; cbn in H.
  - now inversion H.
  - destruct (_get_truncated_cluster_info c b) as [r|x] eqn:Hr; [|discriminate].
    destruct (truncate_pks_clusters b cs) as [l'|x]; [|discriminate].
    inversion H; subst l. cbn. rewrite <- (IH l') by reflexivity. f_equal.
    unfold _get_truncated_cluster_info in Hr.
    cbn [cr_status set_vdc common_properties] in Hr.
    unfold pks_record_spec, dict_get_default at 3.
    destruct (dict_get c "status") as [st|]; [|discriminate].
    inversion Hr; subst r. cbn. f_equal.
    destruct (dict_get_default c "compute-profile-name" ""); reflexivity.
Qed.

Lemma frames_list_pks l : Frames (list_pks_clusters l).
Proof.
  induction l as [|c l IH]; cbn -[bind].
  - apply frames_ret.
  - unfold broker_list_clusters. frames_tac.
Qed.

Lemma list_pks_clusters_ok accts e tr l :
  fst (list_pks_clusters accts e tr) = Ok l ->
  exists pls, Forall2 (fun a pl => list_clusters e (PKSBroker a) = Ok pl) accts pls /\
         l = concat (map (map pks_record_spec) pls).
Proof.
  revert tr l. induction accts as [|a accts IH]; intros tr l H.
  - cbn in H. inversion H. exists []. split; constructor.
  - cbn [list_pks_clusters] in H.
    unfold bind at 1, broker_list_clusters, call in H.
    destruct (list_clusters e (PKSBroker a)) as [cs|x] eqn:Hcs; [|discriminate].
    unfold bind at 1, lift in H.
    destruct (truncate_pks_clusters (PKSBroker a) cs) as [recs|x] eqn:Ht;
      [|discriminate].
    unfold bind in H. rewrite frames_list_pks in H.
    destruct (list_pks_clusters accts e []) as [[more|x] t] eqn:Hm; [|discriminate].
    cbn in H. inversion H; subst l.
    destruct (IH [] more) as [pls [Hf Hl]]; [now rewrite Hm|].
    exists (cs :: pls). split; [now constructor|].
    cbn. rewrite Hl. f_equal. now apply truncate_pks_clusters_ok in Ht.
Qed.

(** C7: with no vdc in the request, a successful list-clusters returns the
    vCD broker's clusters, each cut to name, vdc and status and tagged
    vCD, followed by the clusters of the PKS brokers of the enumerated
    accounts, account by account in enumeration order, each cut to name,
    vdc and status (derived as in C6) and tagged PKS. *)
Theorem list_clusters_vcd_then_pks e l :
  is_ovdc_present_in_request e = false ->
  fst (_list_clusters e []) = Ok (inr l) ->
  exists vcd_list accts pks_lists,
    list_clusters e VcdBroker = Ok vcd_list /\
    fst (_create_pks_context_for_all_accounts_in_org e []) = Ok accts /\
    Forall2 (fun a pl => list_clusters e (PKSBroker a) = Ok pl) accts pks_lists /\
    l = map vcd_record_spec vcd_list ++ concat (map (map pks_record_spec) pks_lists).
Proof.
  intros Hp H.
  unfold _list_clusters, bind at 1, ask in H. rewrite Hp in H.
  unfold bind at 1, broker_list_clusters, call in H.
  destruct (list_clusters e VcdBroker) as [vl|x] eqn:Hv; [|discriminate].
  unfold bind at 1 in H. rewrite frames_enum in H.
  destruct (_create_pks_context_for_all_accounts_in_org e []) as [[accts|x] t] eqn:He;
    [|discriminate].
  unfold bind in H. cbn [fst snd] in H. rewrite frames_list_pks in H.
  destruct (list_pks_clusters accts e []) as [[pl|x] t'] eqn:Hl; [|discriminate].
  cbn in H. inversion H; subst l.
  destruct (list_pks_clusters_ok accts e [] pl) as [pls [Hf Hpl]];
    [now rewrite Hl|].
  exists vl, accts, pls. split; [reflexivity|]. split; [reflexivity|].
  split; [exact Hf|]. rewrite Hpl. reflexivity.
Qed.

(** C8: while enabling an ovdc for PKS, a [PksServerError] with status 409
    from [create_compute_profile] is swallowed: the operation goes on to
    set the ovdc metadata exactly as when the profile is created; any other
    [PksServerError] is raised and the metadata is not set. *)
Theorem enable_ovdc_conflict_is_swallowed e ctx ovdc :
  dict_get (req_spec e) CONTAINER_PROVIDER_KEY = Some CtrProvType_PKS ->
  fst (_get_ovdc_params e []) = Ok (Some ctx, ovdc) ->
  let params := compute_profile_params e ctx in
  let cp_call := CCreateComputeProfile (PKSBroker ctx) params in
  let set_call := CSetOvdcMetadata ovdc (Some ctx) CtrProvType_PKS in
  let proceeds :=
    (match set_ovdc_metadata e ovdc (Some ctx) CtrProvType_PKS with
     | Ok task => Ok (dict_get task "href")
     | Err x => Err x
     end, [cp_call; set_call]) in
  (create_compute_profile e (PKSBroker ctx) params = Ok tt ->
   enable_ovdc e [] = proceeds) /\
  (create_compute_profile e (PKSBroker ctx) params =
     Err (PksServerError HTTPStatus_CONFLICT) ->
   enable_ovdc e [] = proceeds) /\
  (forall status, status <> HTTPStatus_CONFLICT ->
   create_compute_profile e (PKSBroker ctx) params = Err (PksServerError status) ->
   enable_ovdc e [] = (Err (PksServerError status), [cp_call])).
Proof.
  intros Hprov Hpar. cbv zeta.
  assert (Hg : _get_ovdc_params e [] = (Ok (Some ctx, ovdc), [])).
  { pose proof (get_ovdc_params_no_calls e) as Hn.
    destruct (_get_ovdc_params e []) as [r t]. cbn in Hn, Hpar. now subst. }
  assert (Hrun : forall r,
    create_compute_profile e (PKSBroker ctx) (compute_profile_params e ctx) = r ->
    enable_ovdc e [] =
    match r with
    | Ok _ =>
        (match set_ovdc_metadata e ovdc (Some ctx) CtrProvType_PKS with
         | Ok task => Ok (dict_get task "href")
         | Err x => Err x
         end,
         [CCreateComputeProfile (PKSBroker ctx) (compute_profile_params e ctx);
          CSetOvdcMetadata ovdc (Some ctx) CtrProvType_PKS])
    | Err (PksServerError s) =>
        if Nat.eqb s HTTPStatus_CONFLICT then
          (match set_ovdc_metadata e ovdc (Some ctx) CtrProvType_PKS with
           | Ok task => Ok (dict_get task "href")
           | Err x => Err x
           end,
           [CCreateComputeProfile (PKSBroker ctx) (compute_profile_params e ctx);
            CSetOvdcMetadata ovdc (Some ctx) CtrProvType_PKS])
        else (Err (PksServerError s),
              [CCreateComputeProfile (PKSBroker ctx) (compute_profile_params e ctx)])
    | Err x =>
        (Err x, [CCreateComputeProfile (PKSBroker ctx) (compute_profile_params e ctx)])
    end).
  { intros r Hr. unfold enable_ovdc. unfold bind at 1. rewrite Hg.
    unfold bind, ask, lift, dict_subscript. rewrite Hprov.
    cbn -[_create_pks_compute_profile set_ovdc_metadata compute_profile_params].
    unfold _create_pks_compute_profile, try_except, bind, ask, lift,
      broker_create_compute_profile, call.
    cbn -[set_ovdc_metadata compute_profile_params create_compute_profile].
    rewrite Hr.
    destruct r as [[]|x]; [|destruct x as [| |s| | |]];
      cbn -[set_ovdc_metadata compute_profile_params]; try reflexivity.
    all: try (destruct (set_ovdc_metadata e ovdc (Some ctx) CtrProvType_PKS);
              reflexivity).
    destruct (Nat.eqb s HTTPStatus_CONFLICT);
      cbn -[set_ovdc_metadata compute_profile_params]; [|reflexivity].
    destruct (set_ovdc_metadata e ovdc (Some ctx) CtrProvType_PKS); reflexivity. }
  split; [|split].
  - intro H. rewrite (Hrun _ H). reflexivity.
  - intro H. rewrite (Hrun _ H). reflexivity.
  - intros s Hs H. rewrite (Hrun _ H).
    apply Nat.eqb_neq in Hs. now rewrite Hs.
Qed.

(** ** Account enumeration: the dict keyed by [vc] *)

Lemma dict_set_in {A} (d : list (string * A)) k v k' v' :
  In (k', v') (dict_set d k v) -> (k' = k /\ v' = v) \/ In (k', v') d.
Proof.
  induction d as [|[k0 v0] d IH]; cbn.
  - intros [E|[]]. inversion E. auto.
  - destruct (String.eqb_spec k k0) as [->|Hne].
    + intros [E|H]; [inversion E; auto|auto].
    + intros [E|H]; [auto|]. destruct (IH H) as [H'|H']; auto.
Qed.

Lemma dict_set_keys {A} (d : list (string * A)) k v :
  map fst (dict_set d k v) = map fst d \/
  (map fst (dict_set d k v) = map fst d ++ [k] /\ ~ In k (map fst d)).
Proof.
  induction d as [|[k0 v0] d IH]; cbn.
  - right. split; [reflexivity|tauto].
  - destruct (String.eqb_spec k k0) as [->|Hne]; [left; reflexivity|].
    cbn. destruct IH as [IH|[IH Hn]]; rewrite IH; [left; reflexivity|].
    right. split; [reflexivity|]. intros [E|H]; [congruence|tauto].
Qed.

Lemma dict_set_has_key {A} (d : list (string * A)) k v :
  In k (map fst (dict_set d k v)).
Proof.
  induction d as [|[k0 v0] d IH]; cbn; [auto|].
  destruct (String.eqb_spec k k0) as [->|Hne]; cbn; auto.
Qed.

Lemma dict_set_keeps_key {A} (d : list (string * A)) k v k' :
  In k' (map fst d) -> In k' (map fst (dict_set d k v)).
Proof.
  destruct (dict_set_keys d k v) as [E|[E _]]; rewrite E; [auto|].
  intro H. apply in_or_app. auto.
Qed.

Lemma dict_set_nodup {A} (d : list (string * A)) k v :
  NoDup (map fst d) -> NoDup (map fst (dict_set d k v)).
Proof.
  intro H. destruct (dict_set_keys d k v) as [E|[E Hn]]; rewrite E; [exact H|].
  apply NoDup_app; auto using NoDup_cons, NoDup_nil.
  - intros x Hx [<-|[]]. contradiction.
Qed.

Section Enumeration.
Variable e : Env.
Variable org : option string.

Lemma collect_inv_nil : collect_inv e org [] [].
Proof. split; [constructor|]. split; [intros k v []|intros vdc c []]. Qed.

Lemma collect_preserves names : forall done d tr d',
  collect_inv e org done d ->
  fst (collect_pks_ctx_dict org names d e tr) = Ok d' ->
  collect_inv e org (done ++ names) d'.
Proof.
  induction names as [|vdc rest IH]; intros done d tr d' Hinv H.
  - cbn in H. inversion H; subst. now rewrite app_nil_r.
  - cbn [collect_pks_ctx_dict] in H.
    unfold bind at 1, get_ovdc_container_provider_metadata, call in H.
    destruct (ovdc_metadata e vdc org false) as [c|x] eqn:Hm; [|discriminate].
    unfold bind at 1, lift in H.
    destruct (dict_subscript c CONTAINER_PROVIDER_KEY) as [prov|x] eqn:Hp;
      [|discriminate].
    unfold dict_subscript in Hp.
    destruct (dict_get c CONTAINER_PROVIDER_KEY) as [prov'|] eqn:Hp'; inversion Hp;
      subst prov'.
    replace (done ++ vdc :: rest) with ((done ++ [vdc]) ++ rest)
      by now rewrite <- app_assoc.
    destruct Hinv as [Hnd [Hkv Hcov]].
    destruct (String.eqb_spec prov CtrProvType_PKS) as [Hpks|Hpks].
    + unfold bind at 1, lift in H.
      destruct (dict_subscript c "vc") as [k|x] eqn:Hk; [|discriminate].
      unfold dict_subscript in Hk.
      destruct (dict_get c "vc") as [k'|] eqn:Hk'; inversion Hk; subst k'.
      eapply IH; [|exact H].
      split; [now apply dict_set_nodup|]. split.
      * intros k0 v0 Hin. apply dict_set_in in Hin as [[-> ->]|Hin].
        -- split; [exact Hk'|]. exists vdc. split; [apply in_or_app; cbn; auto|].
           split; [exact Hm|now rewrite Hp', Hpks].
        -- destruct (Hkv k0 v0 Hin) as [Hv [w [Hw Hw']]].
           split; [exact Hv|]. exists w. split; [apply in_or_app; auto|exact Hw'].
      * intros w c' Hw [Hm' Hp''].
        apply in_app_or in Hw as [Hw|[<-|[]]].
        -- destruct (Hcov w c' Hw (conj Hm' Hp'')) as [k0 [Hk0 Hin]].
           exists k0. split; [exact Hk0|]. now apply dict_set_keeps_key.
        -- rewrite Hm in Hm'. inversion Hm'; subst c'.
           exists k. split; [exact Hk'|]. apply dict_set_has_key.
    + eapply IH; [|exact H].
      split; [exact Hnd|]. split.
      * intros k0 v0 Hin. destruct (Hkv k0 v0 Hin) as [Hv [w [Hw Hw']]].
        split; [exact Hv|]. exists w. split; [apply in_or_app; auto|exact Hw'].
      * intros w c' Hw [Hm' Hp''].
        apply in_app_or in Hw as [Hw|[<-|[]]].
        -- exact (Hcov w c' Hw (conj Hm' Hp'')).
        -- rewrite Hm in Hm'. inversion Hm'; subst c'.
           rewrite Hp' in Hp''. inversion Hp''. contradiction.
Qed.
End Enumeration.

Lemma filter_vc_absent (d : list (string * Dict)) k :
  (forall k0 v0, In (k0, v0) d -> dict_get v0 "vc" = Some k0) ->
  ~ In k (map fst d) ->
  filter (fun c => opt_str_eqb (dict_get c "vc") (Some k)) (map snd d) = [].
Proof.
  induction d as [|[k0 v0] d IH]; intros Hkv Hn; [reflexivity|].
  cbn. rewrite (Hkv k0 v0 (or_introl eq_refl)). cbn.
  destruct (String.eqb_spec k0 k) as [->|Hne]; [cbn in Hn; tauto|].
  apply IH; [intros; apply Hkv; now right|]. cbn in Hn. tauto.
Qed.

Lemma filter_vc_once (d : list (string * Dict)) k :
  NoDup (map fst d) ->
  (forall k0 v0, In (k0, v0) d -> dict_get v0 "vc" = Some k0) ->
  In k (map fst d) ->
  length (filter (fun c => opt_str_eqb (dict_get c "vc") (Some k)) (map snd d)) = 1.
Proof.
  induction d as [|[k0 v0] d IH]; intros Hnd Hkv Hin; [destruct Hin|].
  cbn. rewrite (Hkv k0 v0 (or_introl eq_refl)). cbn.
  inversion Hnd as [|? ? Hn Hnd']; subst.
  assert (Hkv' : forall k1 v1, In (k1, v1) d -> dict_get v1 "vc" = Some k1)
    by (intros; apply Hkv; now right).
  destruct (String.eqb_spec k0 k) as [->|Hne].
  - cbn. now rewrite filter_vc_absent.
  - apply IH; auto. cbn in Hin. destruct Hin; [congruence|assumption].
Qed.

Lemma map_vc_nodup (d : list (string * Dict)) :
  NoDup (map fst d) ->
  (forall k0 v0, In (k0, v0) d -> dict_get v0 "vc" = Some k0) ->
  NoDup (map (fun c => dict_get c "vc") (map snd d)).
Proof.
  induction d as [|[k0 v0] d IH]; intros Hnd Hkv; cbn; [constructor|].
  inversion Hnd as [|? ? Hn Hnd']; subst.
  assert (Hkv' : forall k1 v1, In (k1, v1) d -> dict_get v1 "vc" = Some k1)
    by (intros; apply Hkv; now right).
  constructor; [|now apply IH].
  rewrite (Hkv k0 v0 (or_introl eq_refl)), map_map.
  intro Hin. apply in_map_iff in Hin as [[k1 v1] [E Hin]]. cbn in E.
  rewrite (Hkv' k1 v1 Hin) in E. inversion E; subst k1.
  apply Hn. apply in_map_iff. now exists (k0, v1).
Qed.

(** C9: for a caller who is not a system administrator, in a system whose
    orgs have no exclusive PKS accounts, a successful account enumeration
    lists only metadata of PKS-owned vdcs of the caller's org, no two with
    the same [vc], and for every PKS-owned vdc of the org exactly one
    listed account has that vdc's [vc]: vdcs sharing a [vc] contribute one
    account. *)
Theorem enumeration_dedups_by_vc e pc l :
  pks_cache e = Some pc ->
  is_sysadmin e = false ->
  do_orgs_have_exclusive_pks_account pc = false ->
  fst (_create_pks_context_for_all_accounts_in_org e []) = Ok l ->
  let org := dict_get (session e) "org" in
  NoDup (map (fun c => dict_get c "vc") l) /\
  (forall c, In c l ->
     exists vdc, In vdc (org_vdc_names e) /\ pks_owned e org vdc c) /\
  (forall vdc c, In vdc (org_vdc_names e) -> pks_owned e org vdc c ->
     exists k, dict_get c "vc" = Some k /\
       length (filter (fun c' => opt_str_eqb (dict_get c' "vc") (Some k)) l) = 1).
Proof.
  intros Hpc Hsys Hex H org.
  unfold _create_pks_context_for_all_accounts_in_org, bind at 1, ask in H.
  rewrite Hpc, Hsys, Hex in H. unfold bind in H.
  destruct (collect_pks_ctx_dict (dict_get (session e) "org") (org_vdc_names e) [] e [])
    as [[d|x] t] eqn:Hc; [|discriminate].
  cbn in H. inversion H; subst l.
  destruct (collect_preserves e org (org_vdc_names e) [] [] [] d
              (collect_inv_nil e org)) as [Hnd [Hkv Hcov]];
    [unfold org; now rewrite Hc|].
  assert (Hkv' : forall k0 v0, In (k0, v0) d -> dict_get v0 "vc" = Some k0)
    by (intros k0 v0 Hin; exact (proj1 (Hkv k0 v0 Hin))).
  unfold dict_values. split; [now apply map_vc_nodup|]. split.
  - intros c Hin. apply in_map_iff in Hin as [[k v] [E Hin]]. cbn in E. subst v.
    destruct (Hkv k c Hin) as [_ [w [Hw Hw']]]. now exists w.
  - intros vdc c Hin Ho. destruct (Hcov vdc c Hin Ho) as [k [Hk Hk']].
    exists k. split; [exact Hk|]. now apply filter_vc_once.
Qed.

Lemma get_broker_fallback e tr :
  truthy_str (req_vdc e) && truthy_str (req_org e) = false ->
  get_broker_based_on_vdc e tr = (Ok VcdBroker, tr).
Proof.
  intros H. unfold get_broker_based_on_vdc, bind, ask, ret.
  destruct (req_vdc e) as [v|], (req_org e) as [o|]; cbn in *; try reflexivity.
  now rewrite H.
Qed.

(** C10: when the vdc name or the org name of the request cannot be
    determined (absent or empty in the request body, the query parameters
    and, for the org, the session), [get_broker_based_on_vdc] raises nothing
    and resolves to the vCD broker without any call; in particular a
    create-cluster request naming no vdc, whose duplicate-name search misses
    on every candidate, is delegated to the vCD broker's [create_cluster],
    the only create call made. *)
Theorem missing_vdc_or_org_falls_back_to_vcd kw n e accts :
  (truthy_str (req_vdc e) && truthy_str (req_org e) = false ->
   forall tr, get_broker_based_on_vdc e tr = (Ok VcdBroker, tr)) /\
  (is_ovdc_present_in_request e = false ->
   kwargs_get kw "cluster_name" = Some n ->
   fst (_create_pks_context_for_all_accounts_in_org e []) = Ok accts ->
   Forall has_host accts ->
   forallb (probe_fails e n) (candidates accts) = true ->
   fst (_create_cluster kw e []) = create_cluster e VcdBroker kw /\
   create_calls (snd (_create_cluster kw e [])) = [CCreateCluster VcdBroker kw]).
Proof.
  split.
  - intros H tr. now apply get_broker_fallback.
  - intros Hv Hkw Henum Hh Hall.
    pose proof (create_cluster_not_found kw n e accts Hkw Henum Hh Hall) as Hc.
    unfold is_ovdc_present_in_request in Hv.
    rewrite get_broker_fallback in Hc by now rewrite Hv.
    exact Hc.
Qed.

(** ** Concrete runs of the claims in the PKS world *)

Ltac world_hosts :=
  unfold world_accounts; repeat constructor; unfold has_host; vm_compute;
  intros ?; discriminate.

Lemma world_hits_truthy n : hits_are_truthy world_env n.
Proof.
  intros b c H. unfold world_env, pks_env in H. cbn [get_cluster_info] in H.
  unfold world_cluster_info in H.
  repeat match type of H with
         | context [match ?x with _ => _ end] => destruct x
         end; try discriminate H; inversion H; reflexivity.
Qed.

(** C1 at work: "c2" is found on the account of "vc2", so the create is
    refused with no create call; "c9" is found nowhere, so it is created on
    vCD (no vdc in the request), with one create call. *)
Lemma create_cluster_duplicate_or_delegate_witness :
  (fst (_create_cluster c2_spec world_env []) =
     Err (CseServerError (already_found_msg (Some "c2"))) /\
   create_calls (snd (_create_cluster c2_spec world_env [])) = []) /\
  (fst (_create_cluster c9_spec world_env []) =
     create_cluster world_env VcdBroker c9_spec /\
   create_calls (snd (_create_cluster c9_spec world_env [])) =
     [CCreateCluster VcdBroker c9_spec]).
Proof.
  split.
  - destruct (create_cluster_duplicate_or_delegate c2_spec (Some "c2") world_env
                world_accounts) as [Hf _];
      [reflexivity | vm_compute; reflexivity | world_hosts
      | apply world_hits_truthy |].
    apply Hf. vm_compute. reflexivity.
  - destruct (create_cluster_duplicate_or_delegate c9_spec (Some "c9") world_env
                world_accounts) as [_ Hn];
      [reflexivity | vm_compute; reflexivity | world_hosts
      | apply world_hits_truthy |].
    assert (Hg : fst (get_broker_based_on_vdc world_env []) = Ok VcdBroker)
      by (vm_compute; reflexivity).
    rewrite Hg in Hn. apply Hn. vm_compute. reflexivity.
Defined.

Lemma find_cluster_in_org_first_hit_witness :
  fst (_find_cluster_in_org (Some "c2") world_env []) =
    Ok (first_hit world_env (Some "c2") (VcdBroker :: map PKSBroker world_accounts)) /\
  broker_calls (snd (_find_cluster_in_org (Some "c2") world_env [])) =
    probe_calls (Some "c2")
      (probed world_env (Some "c2") (VcdBroker :: map PKSBroker world_accounts)).
Proof.
  apply (find_cluster_in_org_first_hit (Some "c2") world_env world_accounts);
    [vm_compute; reflexivity | world_hosts].
Defined.

(** C3 at work: "c9" is on no candidate, so [_get_cluster_info] raises
    [ClusterNotFoundError]. *)
Lemma search_not_found_iff_all_fail_witness :
  fst (_get_cluster_info c9_spec world_env []) =
    Err (ClusterNotFoundError (not_found_msg (Some "c9"))).
Proof.
  destruct (search_not_found_iff_all_fail c9_spec (Some "c9") world_env world_accounts)
    as [[_ Hiff] _];
    [reflexivity | vm_compute; reflexivity | vm_compute; reflexivity
    | world_hosts | apply world_hits_truthy |].
  apply Hiff. vm_compute. reflexivity.
Defined.

Lemma resize_passes_record_delete_passes_name_witness :
  _resize_cluster c2_spec world_env [] =
    (resize_cluster world_env (PKSBroker vc2_account) c2_record c2_spec,
     snd (_get_cluster_info c2_spec world_env []) ++
       [CResizeCluster (PKSBroker vc2_account) c2_record c2_spec]) /\
  _delete_cluster c2_spec world_env [] =
    (delete_cluster world_env (PKSBroker vc2_account) (Some "c2"),
     snd (_get_cluster_info c2_spec world_env []) ++
       [CDeleteCluster (PKSBroker vc2_account) (Some "c2")]).
Proof.
  apply (resize_passes_record_delete_passes_name c2_spec (Some "c2") world_env
           c2_record (PKSBroker vc2_account));
    [reflexivity | vm_compute; reflexivity].
Defined.

Lemma explicit_vdc_direct_resolution_witness :
  snd (_get_cluster_info c2_spec vdc3_env []) =
    [CGetOvdcMetadata "vdc3" (Some "acme") true;
     CGetClusterInfo (broker_of_ctx vc2_account) (Some "c2")] /\
  snd (_get_cluster_config c2_spec vdc3_env []) =
    [CGetOvdcMetadata "vdc3" (Some "acme") true;
     CGetClusterConfig (broker_of_ctx vc2_account) (Some "c2")] /\
  snd (_list_clusters vdc3_env []) =
    [CGetOvdcMetadata "vdc3" (Some "acme") true;
     CListClusters (broker_of_ctx vc2_account)] /\
  (forall c, get_cluster_info vdc3_env (broker_of_ctx vc2_account) (Some "c2") = Ok c ->
   snd (_resize_cluster c2_spec vdc3_env []) =
     [CGetOvdcMetadata "vdc3" (Some "acme") true;
      CGetClusterInfo (broker_of_ctx vc2_account) (Some "c2");
      CResizeCluster (broker_of_ctx vc2_account) c c2_spec] /\
   snd (_delete_cluster c2_spec vdc3_env []) =
     [CGetOvdcMetadata "vdc3" (Some "acme") true;
      CGetClusterInfo (broker_of_ctx vc2_account) (Some "c2");
      CDeleteCluster (broker_of_ctx vc2_account) (Some "c2")]) /\
  _create_cluster c9_spec vdc3_env [] =
    (Ok "created",
     snd (_find_cluster_in_org (Some "c9") vdc3_env []) ++
       [CGetOvdcMetadata "vdc3" (Some "acme") true;
        CCreateCluster (PKSBroker vc2_account) c9_spec]).
Proof.
  destruct (explicit_vdc_direct_resolution c2_spec (Some "c2") vdc3_env "vdc3" "acme"
              vc2_account eq_refl eq_refl ltac:(discriminate) eq_refl
              ltac:(discriminate) eq_refl (or_introl eq_refl))
    as [H1 [H2 [H3 [H4 _]]]].
  destruct (explicit_vdc_direct_resolution c9_spec (Some "c9") vdc3_env "vdc3" "acme"
              vc2_account eq_refl eq_refl ltac:(discriminate) eq_refl
              ltac:(discriminate) eq_refl (or_introl eq_refl))
    as [_ [_ [_ [_ H5]]]].
  split; [exact H1|]. split; [exact H2|]. split; [exact H3|]. split; [exact H4|].
  rewrite H5. vm_compute. reflexivity.
Defined.

(** C6 at work: "c2" is projected with status "create succeeded" and vdc
    "vdc3". *)
Lemma pks_projection_status_and_vdc_witness :
  exists status,
    dict_get c2_record "status" = Some status /\
    Some "create succeeded" = Some (py_lower (dict_get_default c2_record "last-action" "")
                                    ++ " " ++ py_lower status)%string /\
    Some "vdc3" = Some (last_item (split_dd
                   (dict_get_default c2_record "compute-profile-name" ""))).
Proof.
  exact (pks_projection_status_and_vdc c2_record (PKSBroker vc2_account)
           {| cr_name := Some "c2"; cr_vdc := Some "vdc3";
              cr_status := Some "create succeeded";
              cr_container_provider := None |} eq_refl).
Defined.

(** C7 at work: the vCD cluster "c1" comes first, then "c2" of the account
    of "vc2". *)
Lemma list_clusters_vcd_then_pks_witness :
  exists vcd_list accts pks_lists,
    list_clusters world_env VcdBroker = Ok vcd_list /\
    fst (_create_pks_context_for_all_accounts_in_org world_env []) = Ok accts /\
    Forall2 (fun a pl => list_clusters world_env (PKSBroker a) = Ok pl) accts pks_lists /\
    [{| cr_name := Some "c1"; cr_vdc := Some "vdc4"; cr_status := Some "POWERED_ON";
        cr_container_provider := Some CtrProvType_VCD |};
     {| cr_name := Some "c2"; cr_vdc := Some "vdc3";
        cr_status := Some "create succeeded";
        cr_container_provider := Some CtrProvType_PKS |}] =
    map vcd_record_spec vcd_list ++ concat (map (map pks_record_spec) pks_lists).
Proof.
  apply list_clusters_vcd_then_pks; vm_compute; reflexivity.
Defined.

(** C8 at work: the compute profile of "vdc3" already exists (409), and
    the ovdc metadata is set all the same. *)
Lemma enable_ovdc_conflict_is_swallowed_witness :
  enable_ovdc enable_env [] =
    (Ok (Some "task-42"),
     [CCreateComputeProfile (PKSBroker vc2_account)
        (compute_profile_params enable_env vc2_account);
      CSetOvdcMetadata "vdc3" (Some vc2_account) CtrProvType_PKS]).
Proof.
  destruct (enable_ovdc_conflict_is_swallowed enable_env vc2_account "vdc3")
    as [_ [Hc _]]; [reflexivity | vm_compute; reflexivity |].
  rewrite (Hc eq_refl). reflexivity.
Defined.

(** C9 at work: "vdc1" and "vdc2" share "vc1"; the context of "vdc1" was
    replaced by that of "vdc2", and exactly one enumerated account has the
    vc of "vdc1". *)
Lemma enumeration_dedups_by_vc_witness :
  NoDup (map (fun c => dict_get c "vc") world_accounts) /\
  exists k, dict_get [(CONTAINER_PROVIDER_KEY, CtrProvType_PKS); ("vc", "vc1");
                     ("host", "pks1.acme")] "vc" = Some k /\
    length (filter (fun c' => opt_str_eqb (dict_get c' "vc") (Some k))
              world_accounts) = 1.
Proof.
  destruct (enumeration_dedups_by_vc world_env shared_pks_cache world_accounts)
    as [Hnd [_ Hone]]; [reflexivity | reflexivity | reflexivity
    | vm_compute; reflexivity |].
  split; [exact Hnd|].
  apply (Hone "vdc1"); [cbn; auto | split; reflexivity].
Defined.

(** C10 at work: with no vdc in the request, [get_broker_based_on_vdc]
    resolves to vCD, and "c9" is created there. *)
Lemma missing_vdc_or_org_falls_back_to_vcd_witness :
  get_broker_based_on_vdc world_env [] = (Ok VcdBroker, []) /\
  fst (_create_cluster c9_spec world_env []) = create_cluster world_env VcdBroker c9_spec /\
  create_calls (snd (_create_cluster c9_spec world_env [])) =
    [CCreateCluster VcdBroker c9_spec].
Proof.
  destruct (missing_vdc_or_org_falls_back_to_vcd c9_spec (Some "c9") world_env
              world_accounts) as [Hg Hc].
  split; [apply Hg; reflexivity|].
  apply Hc; [vm_compute; reflexivity | reflexivity | vm_compute; reflexivity
            | world_hosts | vm_compute; reflexivity].
Defined.

(** ** Which calls an operation makes *)

Section OnlyCallsClosure.
Variable P : Call -> Prop.

Lemma only_ret {A} (a : A) : OnlyCalls P (ret a).
Proof. intros e tr c H. now left. Qed.

Lemma only_raise {A} (x : Exn) : OnlyCalls P (@raise A x).
Proof. intros e tr c H. now left. Qed.

Lemma only_lift {A} (r : Result A) : OnlyCalls P (lift r).
Proof. intros e tr c H. now left. Qed.

Lemma only_ask : OnlyCalls P ask.
Proof. intros e tr c H. now left. Qed.

Lemma only_call {A} (c0 : Call) (answer : Env -> Result A) :
  P c0 -> OnlyCalls P (call c0 answer).
Proof.
  intros Hc e tr c H. cbn in H. apply in_app_or in H as [H|[<-|[]]]; auto.
Qed.

Lemma only_bind {A B} (m : M A) (f : A -> M B) :
  OnlyCalls P m -> (forall a, OnlyCalls P (f a)) -> OnlyCalls P (bind m f).
Proof.
  intros Hm Hf e tr c H. unfold bind in H.
  destruct (m e tr) as [[a|x] tr'] eqn:E.
  - destruct (Hf a e tr' c H) as [H'|H']; [|now right].
    apply (Hm e tr c). now rewrite E.
  - apply (Hm e tr c). now rewrite E.
Qed.

Lemma only_try {A} (m : M A) (h : Exn -> M A) :
  OnlyCalls P m -> (forall x, OnlyCalls P (h x)) -> OnlyCalls P (try_except m h).
Proof.
  intros Hm Hh e tr c H. unfold try_except in H.
  destruct (m e tr) as [[a|x] tr'] eqn:E.
  - apply (Hm e tr c). now rewrite E.
  - destruct (Hh x e tr' c H) as [H'|H']; [|now right].
    apply (Hm e tr c). now rewrite E.
Qed.

Lemma only_weaken (Q : Call -> Prop) {A} (m : M A) :
  OnlyCalls Q m -> (forall c, Q c -> P c) -> OnlyCalls P m.
Proof.
  intros Hm HQ e tr c H. destruct (Hm e tr c H); auto.
Qed.
End OnlyCallsClosure.

Create HintDb only.

Ltac only_tac :=
  repeat first
    [ solve [eauto with only]
    | apply only_bind; [| intro]
    | apply only_try; [| intro]
    | apply only_ret | apply only_raise | apply only_lift | apply only_ask
    | apply only_call; cbn;
      solve [reflexivity | left; reflexivity | right; reflexivity]
    | match goal with
      | |- OnlyCalls _ (match ?x with _ => _ end) => destruct x
      | |- OnlyCalls _ (if ?b then _ else _) => destruct b
      end
    | progress cbv beta zeta ].

Lemma only_get_broker : OnlyCalls is_read get_broker_based_on_vdc.
Proof.
  unfold get_broker_based_on_vdc, get_ovdc_container_provider_metadata. only_tac.
Qed.
#[local] Hint Resolve only_get_broker : only.

Lemma only_collect org names d :
  OnlyCalls is_read (collect_pks_ctx_dict org names d).
Proof.
  revert d. induction names as [|vdc rest IH]; intro d; cbn [collect_pks_ctx_dict].
  - only_tac.
  - unfold get_ovdc_container_provider_metadata. only_tac.
Qed.
#[local] Hint Resolve only_collect : only.

Lemma only_enum : OnlyCalls is_read _create_pks_context_for_all_accounts_in_org.
Proof. unfold _create_pks_context_for_all_accounts_in_org. only_tac. Qed.
#[local] Hint Resolve only_enum : only.

Lemma only_find_pks n l : OnlyCalls is_read (find_cluster_in_pks_contexts n l).
Proof.
  induction l as [|ctx rest IH]; cbn [find_cluster_in_pks_contexts].
  - only_tac.
  - unfold broker_get_cluster_info. only_tac.
Qed.
#[local] Hint Resolve only_find_pks : only.

Lemma only_find n : OnlyCalls is_read (_find_cluster_in_org n).
Proof. unfold _find_cluster_in_org, broker_get_cluster_info. only_tac. Qed.
#[local] Hint Resolve only_find : only.

Lemma only_get_cluster_info kw : OnlyCalls is_read (_get_cluster_info kw).
Proof. unfold _get_cluster_info, broker_get_cluster_info. only_tac. Qed.
#[local] Hint Resolve only_get_cluster_info : only.

Lemma only_get_cluster_config kw : OnlyCalls is_read (_get_cluster_config kw).
Proof. unfold _get_cluster_config, broker_get_cluster_config. only_tac. Qed.
#[local] Hint Resolve only_get_cluster_config : only.

Lemma only_list_pks l : OnlyCalls is_read (list_pks_clusters l).
Proof.
  induction l as [|ctx rest IH]; cbn [list_pks_clusters].
  - only_tac.
  - unfold broker_list_clusters. only_tac.
Qed.
#[local] Hint Resolve only_list_pks : only.

Lemma only_list_clusters : OnlyCalls is_read _list_clusters.
Proof. unfold _list_clusters, broker_list_clusters. only_tac. Qed.
#[local] Hint Resolve only_list_clusters : only.

Lemma read_only_op_calls op {A} (m : M A) :
  OnlyCalls is_read m -> OnlyCalls (op_calls op) m.
Proof. intro H. apply (only_weaken _ is_read); [exact H|]. intros c Hc. now left. Qed.
#[local] Hint Extern 2 (OnlyCalls (op_calls _) _) =>
  apply read_only_op_calls; solve [eauto with only] : only.

Lemma only_enable_ovdc : OnlyCalls (op_calls ENABLE_OVDC) enable_ovdc.
Proof.
  unfold enable_ovdc, _get_ovdc_params, _create_pks_compute_profile,
    broker_create_compute_profile.
  only_tac; unfold op_calls; cbn; auto.
Qed.

(** The dispatcher only changes what the operation asks for: [invoke op]
    makes reads and, besides, only calls of [op]'s own kind (a create call
    only for [CREATE_CLUSTER], a resize only for [RESIZE_CLUSTER], a delete
    only for [DELETE_CLUSTER], a compute profile or a metadata write only
    for [ENABLE_OVDC]); the other operations change nothing. *)
Theorem invoke_changes_only_its_kind v op e c :
  In c (snd (invoke v op e [])) -> op_calls op c.
Proof.
  intro H.
  assert (Hop : OnlyCalls (op_calls op) (invoke v op)).
  { unfold invoke. apply only_bind; [apply only_ask|intro e'].
    destruct op; cbv zeta;
      unfold _delete_cluster, _resize_cluster, _create_cluster,
        broker_delete_cluster, broker_resize_cluster, broker_create_cluster;
      try apply only_enable_ovdc;
      only_tac; unfold op_calls; cbn; auto. }
  destruct (Hop e [] c H) as [[]|Hc]. exact Hc.
Qed.

(** ** Listing ovdcs *)

Lemma list_ovdcs_of_org_ok v org vdcs : forall acc l,
  list_ovdcs_of_org v org vdcs acc = Ok l <->
  exists l', l = acc ++ l' /\ Forall2 (ovdc_entry v) (map (fun vdc => (org, vdc)) vdcs) l'.
Proof.
  induction vdcs as [|vdc rest IH]; intros acc l; cbn [list_ovdcs_of_org map].
  - split.
    + intro H. inversion H. exists []. now rewrite app_nil_r.
    + intros [l' [-> Hf]]. inversion Hf. now rewrite app_nil_r.
  - unfold dict_subscript. split.
    + destruct (metadata_without_credentials v vdc (Some (org_get_name org)))
        as [ctx|x] eqn:Hm; [|discriminate].
      destruct (dict_get ctx CONTAINER_PROVIDER_KEY) as [prov|] eqn:Hp;
        [|discriminate].
      intro H. apply IH in H as [l' [-> Hf]].
      eexists. split; [now rewrite <- app_assoc|].
      constructor; [|exact Hf]. exists ctx, prov. auto.
    + intros [l' [-> Hf]]. inversion Hf as [|? d ? l'' Hd Hf']; subst.
      destruct Hd as [ctx [prov [Hm [Hp ->]]]]. cbn [fst snd] in *.
      rewrite Hm, Hp. apply IH. exists l''. split; [now rewrite <- app_assoc|exact Hf'].
Qed.

Lemma list_ovdcs_loop_ok v orgs : forall acc l,
  list_ovdcs_loop v orgs acc = Ok l <->
  exists l', l = acc ++ l' /\ Forall2 (ovdc_entry v) (org_vdc_pairs orgs) l'.
Proof.
  induction orgs as [|org rest IH]; intros acc l; cbn [list_ovdcs_loop].
  - split.
    + intro H. inversion H. exists []. now rewrite app_nil_r.
    + intros [l' [-> Hf]]. inversion Hf. now rewrite app_nil_r.
  - unfold org_vdc_pairs. cbn [flat_map]. fold (org_vdc_pairs rest). split.
    + destruct (list_ovdcs_of_org v org (org_list_vdcs org) acc) as [l1|x] eqn:H1;
        [|discriminate].
      intro H. apply IH in H as [l2 [-> Hf2]].
      apply list_ovdcs_of_org_ok in H1 as [l1' [-> Hf1]].
      exists (l1' ++ l2). split; [now rewrite app_assoc|]. now apply Forall2_app.
    + intros [l' [-> Hf]]. apply Forall2_app_inv_l in Hf as [l1 [l2 [Hf1 [Hf2 ->]]]].
      assert (H1 : list_ovdcs_of_org v org (org_list_vdcs org) acc = Ok (acc ++ l1))
        by (apply list_ovdcs_of_org_ok; eauto).
      rewrite H1. apply IH. exists l2. split; [now rewrite app_assoc|exact Hf2].
Qed.

(** [_list_ovdcs] lists every vdc of the orgs it walks (all orgs for a
    system administrator, the caller's org resources otherwise), org by org
    and vdc by vdc, as [{'org', 'name', 'container_provider'}] with the
    provider read from the vdc's metadata; it succeeds exactly when every
    vdc's metadata can be read and has a [container_provider]. *)
Theorem list_ovdcs_lists_every_vdc v e l :
  _list_ovdcs v e = Ok l <->
  Forall2 (ovdc_entry v)
    (org_vdc_pairs (if is_sysadmin e then get_org_list v else own_org_resources v)) l.
Proof.
  unfold _list_ovdcs. rewrite list_ovdcs_loop_ok. split.
  - intros [l' [-> Hf]]. exact Hf.
  - intro Hf. exists l. auto.
Qed.

(** ** The vdc of a PKS cluster *)

Lemma split_dd_cons c r :
  split_dd (String c r) =
  if Ascii.eqb c "-"%char && starts_with_dash r then
    "" :: split_dd (match r with String _ r' => r' | EmptyString => EmptyString end)
  else match split_dd r with h :: t => String c h :: t | [] => [String c ""] end.
Proof.
  destruct c as [[] [] [] [] [] [] [] []]; try reflexivity.
  destruct r as [|[[] [] [] [] [] [] [] []] r']; reflexivity.
Qed.

Lemma has_dd_cons c r :
  has_dd (String c r) = (Ascii.eqb c "-"%char && starts_with_dash r) || has_dd r.
Proof.
  destruct c as [[] [] [] [] [] [] [] []]; try reflexivity.
  destruct r as [|[[] [] [] [] [] [] [] []] r']; reflexivity.
Qed.

Lemma concat_dd_cons h t :
  t <> [] -> String.concat "--" (h :: t) = (h ++ "--" ++ String.concat "--" t)%string.
Proof. destruct t; [congruence|reflexivity]. Qed.

Lemma starts_with_dash_app h s :
  h <> "" -> starts_with_dash (h ++ s) = starts_with_dash h.
Proof. destruct h; [congruence|reflexivity]. Qed.

(** [s.split('--')] and ['--'.join(...)] are inverse, and no piece holds
    ['--']. *)
Lemma split_dd_join_nodd n : forall s, String.length s <= n ->
  split_dd s <> [] /\ String.concat "--" (split_dd s) = s /\
  Forall (fun x => has_dd x = false) (split_dd s).
Proof.
  induction n as [|n IH]; intros s Hs.
  - destruct s; [|cbn in Hs; lia]. cbn. split; [congruence|]. auto.
  - destruct s as [|c r]; [cbn; split; [congruence|]; auto|].
    rewrite split_dd_cons.
    destruct (Ascii.eqb c "-"%char && starts_with_dash r) eqn:Hb.
    + apply andb_true_iff in Hb as [Hc Hr]. apply Ascii.eqb_eq in Hc. subst c.
      destruct r as [|c' r']; [discriminate|]. cbn in Hr, Hs.
      apply Ascii.eqb_eq in Hr. subst c'.
      destruct (IH r') as [Hne [Hj Hf]]; [lia|].
      split; [congruence|]. split.
      * rewrite concat_dd_cons by exact Hne. now rewrite Hj.
      * constructor; [reflexivity|exact Hf].
    + destruct (IH r) as [Hne [Hj Hf]]; [cbn in Hs; lia|].
      destruct (split_dd r) as [|h t]; [congruence|].
      split; [congruence|].
      apply Forall_cons_iff in Hf as [Hh Ht].
      assert (Hr : r = h \/ r = (h ++ "--" ++ String.concat "--" t)%string).
      { destruct t; [left; exact (eq_sym Hj)|right]. rewrite <- Hj. reflexivity. }
      split.
      * destruct t as [|h' t']; [cbn in *; now rewrite Hj|].
        rewrite concat_dd_cons in Hj |- * by congruence.
        rewrite <- Hj. reflexivity.
      * constructor; [|exact Ht].
        rewrite has_dd_cons, Hh, orb_false_r.
        destruct (String.eqb_spec h "") as [->|Hne']; [now rewrite andb_false_r|].
        destruct Hr as [->| ->]; [exact Hb|].
        now rewrite starts_with_dash_app in Hb.
Qed.

Lemma split_dd_nonempty s : split_dd s <> [].
Proof. exact (proj1 (split_dd_join_nodd (String.length s) s (le_n _))). Qed.

Lemma split_dd_nodd s : has_dd s = false -> split_dd s = [s].
Proof.
  induction s as [|c r IH]; [reflexivity|].
  rewrite has_dd_cons, split_dd_cons. intro H.
  apply orb_false_iff in H as [Hb Hr]. rewrite Hb, (IH Hr). reflexivity.
Qed.

Lemma ends_with_dash_cons2 c d r :
  ends_with_dash (String c (String d r)) = ends_with_dash (String d r).
Proof. reflexivity. Qed.

(** Splitting [pre--w] splits [pre] and [w] apart when the separator
    cannot be read one character earlier or later. *)
Lemma split_dd_join n : forall pre w, String.length pre <= n ->
  ends_with_dash pre = false -> starts_with_dash w = false ->
  split_dd (pre ++ "--" ++ w) = split_dd pre ++ split_dd w.
Proof.
  induction n as [|n IH]; intros pre w Hn He Hw.
  - destruct pre; [reflexivity|cbn in Hn; lia].
  - destruct pre as [|c r]; [reflexivity|].
    change (String c r ++ "--" ++ w)%string with (String c (r ++ "--" ++ w)).
    rewrite (split_dd_cons c (r ++ "--" ++ w)), (split_dd_cons c r).
    destruct r as [|d r'].
    + cbn [String.append starts_with_dash]. cbn in He. rewrite He. cbn [andb].
      reflexivity.
    + cbn [String.append starts_with_dash].
      rewrite ends_with_dash_cons2 in He. cbn in Hn.
      destruct (Ascii.eqb c "-"%char && Ascii.eqb d "-"%char) eqn:Hb.
      * apply andb_true_iff in Hb as [_ Hd].
        apply Ascii.eqb_eq in Hd. subst d.
        assert (He' : ends_with_dash r' = false)
          by (destruct r' as [|x r'']; [reflexivity|exact He]).
        cbn [app]. f_equal. apply IH; [lia|exact He'|exact Hw].
      * change (String d (r' ++ String "-" (String "-" w)))
          with (String d r' ++ "--" ++ w)%string.
        rewrite (IH (String d r') w) by (cbn; lia || assumption).
        pose proof (split_dd_nonempty (String d r')) as Hne.
        destruct (split_dd (String d r')); [congruence|reflexivity].
Qed.

(** The vdc [_get_truncated_cluster_info] gives a PKS cluster: a
    compute-profile name without ['--'] is the vdc itself; a name
    [pre--vdc] is given [vdc] when [vdc] holds no ['--'] and the separator
    cannot be read one character earlier or later ([pre] does not end,
    [vdc] does not start, with ['-']). *)
Theorem truncated_vdc_of_compute_profile_name cluster b r :
  _get_truncated_cluster_info cluster b = Ok r ->
  (has_dd (dict_get_default cluster "compute-profile-name" "") = false ->
   cr_vdc r = Some (dict_get_default cluster "compute-profile-name" "")) /\
  (forall pre vdc,
   dict_get_default cluster "compute-profile-name" "" = (pre ++ "--" ++ vdc)%string ->
   ends_with_dash pre = false -> starts_with_dash vdc = false -> has_dd vdc = false ->
   cr_vdc r = Some vdc).
Proof.
  unfold _get_truncated_cluster_info. cbn [cr_status set_vdc common_properties].
  destruct (dict_get cluster "status") as [st|]; [|discriminate].
  intro H. injection H as <-. cbn [cr_vdc set_status set_vdc]. unfold truthy_str.
  set (cpn := dict_get_default cluster "compute-profile-name" "").
  split.
  - intro Hd. destruct (String.eqb_spec cpn "") as [->|Hne]; [reflexivity|].
    cbn [negb]. unfold last_item. now rewrite split_dd_nodd.
  - intros pre vdc Hc He Hw Hd. rewrite Hc.
    assert (Hne : String.eqb (pre ++ "--" ++ vdc) "" = false)
      by (destruct pre; reflexivity).
    rewrite Hne. cbn [negb]. unfold last_item.
    rewrite (split_dd_join (String.length pre)) by (auto || lia).
    rewrite (split_dd_nodd vdc Hd). now rewrite last_last.
Qed.

(** ** The search's short cut and its errors *)

(** Without a vdc in the request, when vCD answers [get_cluster_info] the
    search stops there, PKS is never consulted (one call in all), and the
    answer alone decides: an empty dict from vCD is "not found". *)
Theorem vcd_answer_decides_get_cluster_info kw n e c :
  kwargs_get kw "cluster_name" = Some n ->
  is_ovdc_present_in_request e = false ->
  get_cluster_info e VcdBroker n = Ok c ->
  _get_cluster_info kw e [] =
    (if truthy_dict c then Ok (c, VcdBroker)
     else Err (ClusterNotFoundError (not_found_msg n)),
     [CGetClusterInfo VcdBroker n]).
Proof.
  intros Hkw Hp Hc.
  unfold _get_cluster_info, _find_cluster_in_org, broker_get_cluster_info,
    try_except, call, bind, lift, kwargs_subscript, ask, ret, raise.
  rewrite Hkw. cbv beta iota. rewrite Hp, Hc. cbn.
  destruct (truthy_dict c); reflexivity.
Qed.

Lemma find_pks_host_error n e pre ctx post :
  Forall (fun c => probe_fails e n (PKSBroker c) = true /\ has_host c) pre ->
  probe_fails e n (PKSBroker ctx) = true -> dict_get ctx "host" = None ->
  fst (find_cluster_in_pks_contexts n (pre ++ ctx :: post) e []) = Err (KeyError "host").
Proof.
  intros Hpre Hf Hh. induction Hpre as [|c pre [Hc Hhc] _ IH].
  - cbn [app find_cluster_in_pks_contexts]. unfold probe_fails in Hf.
    unfold try_except, bind, broker_get_cluster_info, call, lift, dict_subscript.
    destruct (get_cluster_info e (PKSBroker ctx) n); [discriminate|].
    cbn. now rewrite Hh.
  - cbn [app find_cluster_in_pks_contexts]. unfold probe_fails in Hc.
    unfold try_except at 1, bind at 1, broker_get_cluster_info, call.
    destruct (get_cluster_info e (PKSBroker c) n); [discriminate|].
    unfold bind at 1, lift, dict_subscript.
    destruct (dict_get c "host") eqn:Hg; [|contradiction].
    cbn [fst snd]. rewrite frames_find_pks. exact IH.
Qed.

(** The search raises instead of answering "not found" when, after a vCD
    miss, the enumeration of the PKS accounts raises (its error is
    returned), or when an account whose probe fails has no [host] (the
    [pks_ctx['host']] of the log message raises [KeyError]) before any
    account has the cluster. *)
Theorem search_raises_on_enum_or_host_error n e x :
  get_cluster_info e VcdBroker n = Err x ->
  (forall y, fst (_create_pks_context_for_all_accounts_in_org e []) = Err y ->
   fst (_find_cluster_in_org n e []) = Err y) /\
  (forall pre ctx post,
   fst (_create_pks_context_for_all_accounts_in_org e []) = Ok (pre ++ ctx :: post) ->
   Forall (fun c => probe_fails e n (PKSBroker c) = true /\ has_host c) pre ->
   probe_fails e n (PKSBroker ctx) = true -> dict_get ctx "host" = None ->
   fst (_find_cluster_in_org n e []) = Err (KeyError "host")).
Proof.
  intro Hv.
  assert (Hrun : _find_cluster_in_org n e [] =
            bind _create_pks_context_for_all_accounts_in_org
                 (find_cluster_in_pks_contexts n) e [CGetClusterInfo VcdBroker n]).
  { unfold _find_cluster_in_org at 1, try_except, bind at 1, broker_get_cluster_info, call.
    now rewrite Hv. }
  split.
  - intros y Hy. rewrite Hrun. unfold bind. rewrite frames_enum.
    destruct (_create_pks_context_for_all_accounts_in_org e []) as [r t].
    cbn in Hy. now subst r.
  - intros pre ctx post He Hpre Hf Hh. rewrite Hrun. unfold bind. rewrite frames_enum.
    destruct (_create_pks_context_for_all_accounts_in_org e []) as [r t].
    cbn in He. subst r. cbn [fst snd]. rewrite frames_find_pks.
    now apply find_pks_host_error.
Qed.

(** ** Without PKS *)

Lemma enum_no_cache e tr :
  pks_cache e = None -> _create_pks_context_for_all_accounts_in_org e tr = (Ok [], tr).
Proof.
  intro H. unfold _create_pks_context_for_all_accounts_in_org, bind, ask, ret.
  now rewrite H.
Qed.

(** Without a PKS configuration, and with no vdc in the request, the
    search and the listing only ask vCD: the search makes the one vCD
    probe and finds the cluster exactly when vCD does, and the listing
    makes the one vCD call and returns vCD's clusters, tagged vCD. *)
Theorem no_pks_cache_only_vcd e :
  pks_cache e = None -> is_ovdc_present_in_request e = false ->
  (forall n, _find_cluster_in_org n e [] =
     (Ok (match get_cluster_info e VcdBroker n with
          | Ok c => Some (c, VcdBroker)
          | Err _ => None
          end), [CGetClusterInfo VcdBroker n])) /\
  (forall vl, list_clusters e VcdBroker = Ok vl ->
   _list_clusters e [] = (Ok (inr (map vcd_cluster_record vl)), [CListClusters VcdBroker])).
Proof.
  intros Hc Hp. split.
  - intro n. unfold _find_cluster_in_org at 1, try_except, bind at 1,
      broker_get_cluster_info, call.
    destruct (get_cluster_info e VcdBroker n); [reflexivity|].
    unfold bind. rewrite enum_no_cache by exact Hc. reflexivity.
  - intros vl Hv. unfold _list_clusters, bind at 1, ask. rewrite Hp.
    unfold bind at 1, broker_list_clusters, call. rewrite Hv.
    unfold bind at 1. rewrite enum_no_cache by exact Hc.
    cbn. now rewrite app_nil_r.
Qed.

(** ** A vdc not enabled for Kubernetes *)

(** With a vdc and an org in the request, a vdc whose metadata names
    neither PKS nor vCD as container provider is refused with
    [CseServerError] after the one metadata read, and a failing read
    raises its error; either way get-cluster-info, get-cluster-config and
    list-clusters end there, with no broker call. *)
Theorem unenabled_vdc_is_refused kw n e ovdc org :
  kwargs_get kw "cluster_name" = Some n ->
  req_vdc e = Some ovdc -> ovdc <> "" -> req_org e = Some org -> org <> "" ->
  forall x,
  (ovdc_metadata e ovdc (Some org) true = Err x \/
   exists ctx, ovdc_metadata e ovdc (Some org) true = Ok ctx /\ ~ valid_owner ctx /\
               x = CseServerError (not_enabled_msg ovdc)) ->
  get_broker_based_on_vdc e [] = (Err x, [CGetOvdcMetadata ovdc (Some org) true]) /\
  _get_cluster_info kw e [] = (Err x, [CGetOvdcMetadata ovdc (Some org) true]) /\
  _get_cluster_config kw e [] = (Err x, [CGetOvdcMetadata ovdc (Some org) true]) /\
  _list_clusters e [] = (Err x, [CGetOvdcMetadata ovdc (Some org) true]).
Proof.
  intros Hkw Hv Hv' Ho Ho' x Hx.
  assert (Hg : forall tr, get_broker_based_on_vdc e tr =
                 (Err x, tr ++ [CGetOvdcMetadata ovdc (Some org) true])).
  { intro tr. unfold get_broker_based_on_vdc, bind, ask, ret, raise,
      get_ovdc_container_provider_metadata, call.
    rewrite Hv, Ho. cbv beta iota.
    apply String.eqb_neq in Hv'. apply String.eqb_neq in Ho'.
    cbn [truthy_str]. rewrite Hv', Ho'. cbn [negb andb].
    destruct Hx as [Hm|[ctx [Hm [Hval ->]]]]; rewrite Hm; [reflexivity|].
    unfold valid_owner in Hval.
    destruct (dict_get ctx CONTAINER_PROVIDER_KEY) as [p|].
    - cbn [opt_str_eqb].
      destruct (String.eqb_spec p CtrProvType_PKS) as [->|Hpks];
        [exfalso; auto|].
      destruct (String.eqb_spec p CtrProvType_VCD) as [->|Hvcd];
        [exfalso; auto|reflexivity].
    - reflexivity. }
  assert (Hp : is_ovdc_present_in_request e = true).
  { unfold is_ovdc_present_in_request. rewrite Hv. cbn.
    apply String.eqb_neq in Hv'. now rewrite Hv'. }
  split; [exact (Hg [])|]. split; [|split].
  - unfold _get_cluster_info, bind at 1 2, lift, kwargs_subscript, ask.
    rewrite Hkw, Hp. unfold bind at 1. now rewrite Hg.
  - unfold _get_cluster_config, bind at 1 2, lift, kwargs_subscript, ask.
    rewrite Hkw, Hp. unfold bind at 1. now rewrite Hg.
  - unfold _list_clusters, bind at 1, ask. rewrite Hp.
    unfold bind at 1. now rewrite Hg.
Qed.

(** ** Enabling an ovdc: vCD, and the errors before any write *)

(** Enabling an ovdc for vCD needs no PKS configuration: once the ovdc
    and its pvdc id are found, it creates no compute profile and makes one
    call, the metadata write with no PKS context, whose task's [href] it
    returns. *)
Theorem enable_ovdc_for_vcd e ovdc pvdc_id :
  dict_get (req_spec e) CONTAINER_PROVIDER_KEY = Some CtrProvType_VCD ->
  dict_get (req_spec e) "pks_plans" <> None ->
  get_ovdc e (dict_get (req_spec e) "ovdc_id") = Ok ovdc ->
  get_pvdc_id e ovdc = Ok pvdc_id ->
  enable_ovdc e [] =
    (match set_ovdc_metadata e ovdc None CtrProvType_VCD with
     | Ok task => Ok (dict_get task "href")
     | Err x => Err x
     end, [CSetOvdcMetadata ovdc None CtrProvType_VCD]).
Proof.
  intros Hprov Hplans Hovdc Hpvdc.
  unfold enable_ovdc, _get_ovdc_params, bind, ask, lift, ret, dict_subscript, call.
  destruct (dict_get (req_spec e) "pks_plans") as [plans|]; [|congruence].
  cbv beta iota. rewrite Hovdc. cbv beta iota. rewrite Hpvdc. cbv beta iota.
  rewrite !Hprov. cbn.
  rewrite !Hprov. cbn.
  destruct (set_ovdc_metadata e ovdc None CtrProvType_VCD); reflexivity.
Qed.

(** Enabling fails before any call when the request has no [pks_plans]
    (whatever the provider: [KeyError]); when the pvdc id of the ovdc
    cannot be read (whatever the provider: that error); and when it asks
    for PKS on a server with no PKS configuration ([CseServerError]): no
    compute profile is created and no metadata is written. *)
Theorem enable_ovdc_fails_before_any_call e :
  (dict_get (req_spec e) "pks_plans" = None ->
   enable_ovdc e [] = (Err (KeyError "pks_plans"), [])) /\
  (forall ovdc x,
   dict_get (req_spec e) "pks_plans" <> None ->
   get_ovdc e (dict_get (req_spec e) "ovdc_id") = Ok ovdc ->
   get_pvdc_id e ovdc = Err x ->
   enable_ovdc e [] = (Err x, [])) /\
  (forall ovdc pvdc_id,
   dict_get (req_spec e) CONTAINER_PROVIDER_KEY = Some CtrProvType_PKS ->
   dict_get (req_spec e) "pks_plans" <> None ->
   get_ovdc e (dict_get (req_spec e) "ovdc_id") = Ok ovdc ->
   get_pvdc_id e ovdc = Ok pvdc_id ->
   pks_cache e = None ->
   enable_ovdc e [] = (Err (CseServerError "PKS config file does not exist"), [])).
Proof.
  split; [|split].
  - intro H. unfold enable_ovdc, _get_ovdc_params, bind, ask, lift, dict_subscript.
    now rewrite H.
  - intros ovdc x Hplans Hovdc Hpvdc.
    unfold enable_ovdc, _get_ovdc_params, bind, ask, lift, dict_subscript.
    destruct (dict_get (req_spec e) "pks_plans") as [plans|]; [|congruence].
    cbv beta iota. rewrite Hovdc. cbv beta iota. now rewrite Hpvdc.
  - intros ovdc pvdc_id Hprov Hplans Hovdc Hpvdc Hc.
    unfold enable_ovdc, _get_ovdc_params, bind, ask, lift, ret, raise, dict_subscript.
    destruct (dict_get (req_spec e) "pks_plans") as [plans|]; [|congruence].
    cbv beta iota. rewrite Hovdc. cbv beta iota. rewrite Hpvdc. cbv beta iota.
    rewrite !Hprov. cbn.
    now rewrite Hc.
Qed.

(** ** One PKS cluster without a status fails the whole listing *)

Lemma truncate_err_only b cs x :
  truncate_pks_clusters b cs = Err x -> x = AttributeError.
Proof.
  induction cs as [|c cs IH]; cbn [truncate_pks_clusters]; [discriminate|].
  unfold _get_truncated_cluster_info. cbn [cr_status set_vdc common_properties].
  destruct (dict_get c "status"); [|congruence].
  destruct (truncate_pks_clusters b cs); [discriminate|]. intro H. inversion H; subst. auto.
Qed.

Lemma truncate_missing_status b cs :
  Exists (fun c => dict_get c "status" = None) cs ->
  truncate_pks_clusters b cs = Err AttributeError.
Proof.
  induction 1 as [c cs Hc|c cs _ IH]; cbn [truncate_pks_clusters];
    unfold _get_truncated_cluster_info; cbn [cr_status set_vdc common_properties].
  - now rewrite Hc.
  - destruct (dict_get c "status"); [|reflexivity]. now rewrite IH.
Qed.

Lemma list_pks_missing_status e accts pls :
  Forall2 (fun a pl => list_clusters e (PKSBroker a) = Ok pl) accts pls ->
  Exists (Exists (fun c => dict_get c "status" = None)) pls ->
  fst (list_pks_clusters accts e []) = Err AttributeError.
Proof.
  induction 1 as [|a pl accts pls Hl Hf IH]; intro Hx; [inversion Hx|].
  cbn [list_pks_clusters]. unfold bind at 1, broker_list_clusters, call. rewrite Hl.
  unfold bind at 1, lift.
  destruct (truncate_pks_clusters (PKSBroker a) pl) as [recs|x] eqn:Ht.
  - inversion Hx as [? ? Hh|? ? Ht']; subst.
    + now rewrite truncate_missing_status in Ht.
    + unfold bind. rewrite frames_list_pks.
      destruct (list_pks_clusters accts e []) as [r t] eqn:E.
      cbn in IH |- *. rewrite (IH Ht'). reflexivity.
  - cbn. f_equal. now apply truncate_err_only in Ht.
Qed.

(** Without a vdc in the request, the aggregated listing is all or
    nothing: when every broker lists its clusters, but some PKS account
    lists a cluster without a [status], list-clusters raises
    ([AttributeError] on [None.lower()]) and returns nothing, not even
    the vCD clusters. *)
Theorem list_clusters_fails_on_statusless_pks_cluster e vl accts pls :
  is_ovdc_present_in_request e = false ->
  list_clusters e VcdBroker = Ok vl ->
  fst (_create_pks_context_for_all_accounts_in_org e []) = Ok accts ->
  Forall2 (fun a pl => list_clusters e (PKSBroker a) = Ok pl) accts pls ->
  Exists (Exists (fun c => dict_get c "status" = None)) pls ->
  fst (_list_clusters e []) = Err AttributeError.
Proof.
  intros Hp Hv He Hf Hx.
  unfold _list_clusters, bind at 1, ask. rewrite Hp.
  unfold bind at 1, broker_list_clusters, call. rewrite Hv.
  unfold bind at 1. rewrite frames_enum.
  destruct (_create_pks_context_for_all_accounts_in_org e []) as [r t].
  cbn in He. subst r. cbn [fst snd].
  unfold bind. rewrite frames_list_pks.
  pose proof (list_pks_missing_status e accts pls Hf Hx) as H.
  destruct (list_pks_clusters accts e []) as [r t']. cbn in H. now subst r.
Qed.

(** ** Concrete runs of the dispatcher and of the PKS world *)

(** Creating "c9" through [invoke] ends in a create call, which belongs to
    [CREATE_CLUSTER]. *)
Lemma invoke_changes_only_its_kind_witness :
  let c := CCreateCluster VcdBroker (create_cluster_spec c9_request_env) in
  In c (snd (invoke world_view CREATE_CLUSTER c9_request_env [])) /\
  op_calls CREATE_CLUSTER c.
Proof.
  cbv zeta. split.
  - vm_compute. tauto.
  - apply (invoke_changes_only_its_kind world_view CREATE_CLUSTER c9_request_env).
    vm_compute. tauto.
Defined.

(** The caller of "acme" sees its three vdcs, each with its provider. *)
Lemma list_ovdcs_lists_every_vdc_witness :
  _list_ovdcs world_view world_env =
    Ok [[("org", "acme"); ("name", "vdc1"); (CONTAINER_PROVIDER_KEY, CtrProvType_PKS)];
        [("org", "acme"); ("name", "vdc3"); (CONTAINER_PROVIDER_KEY, CtrProvType_PKS)];
        [("org", "acme"); ("name", "vdc4"); (CONTAINER_PROVIDER_KEY, CtrProvType_VCD)]].
Proof.
  apply list_ovdcs_lists_every_vdc.
  repeat constructor; eexists; eexists; (split; [reflexivity|split; reflexivity]).
Defined.

(** "c2", whose compute profile is "cp--a1b2--vdc3", is given the vdc
    "vdc3". *)
Lemma truncated_vdc_of_compute_profile_name_witness :
  let r := {| cr_name := Some "c2"; cr_vdc := Some "vdc3";
              cr_status := Some "create succeeded";
              cr_container_provider := None |} in
  _get_truncated_cluster_info c2_record (PKSBroker vc2_account) = Ok r /\
  cr_vdc r = Some "vdc3".
Proof.
  cbv zeta. split.
  - vm_compute. reflexivity.
  - destruct (truncated_vdc_of_compute_profile_name c2_record (PKSBroker vc2_account)
      {| cr_name := Some "c2"; cr_vdc := Some "vdc3";
         cr_status := Some "create succeeded";
         cr_container_provider := None |}) as [_ H]; [vm_compute; reflexivity|].
    apply (H "cp--a1b2" "vdc3"); reflexivity.
Defined.

(** "c1" is on vCD: the world, though it has PKS accounts, makes the one
    vCD probe. *)
Lemma vcd_answer_decides_get_cluster_info_witness :
  _get_cluster_info c1_spec world_env [] =
    (Ok (c1_record ++ [("vdc", "vdc4")], VcdBroker),
     [CGetClusterInfo VcdBroker (Some "c1")]).
Proof.
  refine (vcd_answer_decides_get_cluster_info c1_spec (Some "c1") world_env
            (c1_record ++ [("vdc", "vdc4")]) _ _ _); reflexivity.
Defined.

(** With the account of "vc2" recorded without its host, looking for
    "c9" raises [KeyError] instead of answering "not found". *)
Lemma search_raises_on_enum_or_host_error_witness :
  fst (_find_cluster_in_org (Some "c9") hostless_env []) = Err (KeyError "host").
Proof.
  destruct (search_raises_on_enum_or_host_error (Some "c9") hostless_env
              (ClusterNotFoundError "missing")) as [_ Hb]; [reflexivity|].
  apply (Hb [vc1_account] vc2_hostless []).
  - vm_compute. reflexivity.
  - constructor; [|constructor]. split; [reflexivity|].
    unfold has_host. vm_compute. intros ?; discriminate.
  - vm_compute. reflexivity.
  - vm_compute. reflexivity.
Defined.

(** Without PKS, "c1" is found on vCD with one probe, and the listing is
    vCD's (empty) one. *)
Lemma no_pks_cache_only_vcd_witness :
  let e := sample_env [] vcd_owned_meta c1_on_vcd in
  _find_cluster_in_org (Some "c1") e [] =
    (Ok (Some (c1_record, VcdBroker)), [CGetClusterInfo VcdBroker (Some "c1")]) /\
  _list_clusters e [] = (Ok (inr []), [CListClusters VcdBroker]).
Proof.
  cbv zeta.
  destruct (no_pks_cache_only_vcd (sample_env [] vcd_owned_meta c1_on_vcd))
    as [Hf Hl]; [reflexivity|reflexivity|].
  split; [exact (Hf (Some "c1")) | exact (Hl [] eq_refl)].
Defined.

(** "vdc1" of "acme", whose provider is "none", is refused. *)
Lemma unenabled_vdc_is_refused_witness :
  let e := sample_env [("vdc", "vdc1"); ("org", "acme")] unenabled_meta c1_on_vcd in
  let x := CseServerError (not_enabled_msg "vdc1") in
  get_broker_based_on_vdc e [] = (Err x, [CGetOvdcMetadata "vdc1" (Some "acme") true]) /\
  _get_cluster_info c1_spec e [] = (Err x, [CGetOvdcMetadata "vdc1" (Some "acme") true]) /\
  _get_cluster_config c1_spec e [] = (Err x, [CGetOvdcMetadata "vdc1" (Some "acme") true]) /\
  _list_clusters e [] = (Err x, [CGetOvdcMetadata "vdc1" (Some "acme") true]).
Proof.
  cbv zeta.
  apply (unenabled_vdc_is_refused c1_spec (Some "c1")
           (sample_env [("vdc", "vdc1"); ("org", "acme")] unenabled_meta c1_on_vcd)
           "vdc1" "acme"); try reflexivity; try discriminate.
  right. eexists. split; [reflexivity|]. split; [|reflexivity].
  unfold valid_owner. vm_compute. intros [H|H]; discriminate H.
Defined.

(** Enabling for vCD writes the metadata of "vdc3" once and returns the
    task's href. *)
Lemma enable_ovdc_for_vcd_witness :
  enable_ovdc (pks_env vcd_enable_spec created_cp) [] =
    (Ok (Some "task-42"), [CSetOvdcMetadata "vdc3" None CtrProvType_VCD]).
Proof.
  refine (enable_ovdc_for_vcd (pks_env vcd_enable_spec created_cp) "vdc3" "pvdc2"
            _ _ _ _);
    [reflexivity | vm_compute; discriminate | reflexivity | reflexivity].
Defined.

(** Without [pks_plans], with an ovdc whose pvdc is unknown, and asking
    for PKS on a server with no PKS configuration, enabling fails with an
    empty trace. *)
Lemma enable_ovdc_fails_before_any_call_witness :
  enable_ovdc (sample_env [("ovdc_id", "id1")] vcd_owned_meta no_cluster) [] =
    (Err (KeyError "pks_plans"), []) /\
  enable_ovdc pvdc_missing_env [] = (Err (OtherError "no pvdc"), []) /\
  enable_ovdc (sample_env enable_spec vcd_owned_meta no_cluster) [] =
    (Err (CseServerError "PKS config file does not exist"), []).
Proof.
  split; [|split].
  - destruct (enable_ovdc_fails_before_any_call
                (sample_env [("ovdc_id", "id1")] vcd_owned_meta no_cluster)) as [Ha _].
    apply Ha. reflexivity.
  - destruct (enable_ovdc_fails_before_any_call pvdc_missing_env) as [_ [Hb _]].
    apply (Hb "vdc3"); [vm_compute; discriminate | reflexivity | reflexivity].
  - destruct (enable_ovdc_fails_before_any_call
                (sample_env enable_spec vcd_owned_meta no_cluster)) as [_ [_ Hc]].
    apply (Hc "ovdc1" "pvdc1"); [reflexivity | vm_compute; discriminate
                                | reflexivity | reflexivity | reflexivity].
Defined.

(** "c2" listed without a status on "vc2" makes the whole listing fail,
    the vCD cluster "c1" included. *)
Lemma list_clusters_fails_on_statusless_pks_cluster_witness :
  fst (_list_clusters statusless_env []) = Err AttributeError.
Proof.
  apply (list_clusters_fails_on_statusless_pks_cluster statusless_env
           [c1_record ++ [("vdc", "vdc4")]] world_accounts [[]; [c2_statusless]]).
  - reflexivity.
  - reflexivity.
  - vm_compute. reflexivity.
  - constructor; [vm_compute; reflexivity|].
    constructor; [vm_compute; reflexivity|constructor].
  - apply Exists_cons_tl, Exists_cons_hd, Exists_cons_hd. reflexivity.
Defined.
